(* ===================================================================== *)
(*  INNOVISION 2K26 coming-soon page: the countdown timer of script.js    *)
(*                                                                       *)
(*  A shallow embedding of class CountdownTimer with the part of the      *)
(*  browser it talks to (document, console, interval scheduler), and the  *)
(*  properties of the countdown engine and of the periodic presenter.     *)
(*                                                                       *)
(*  Numbers.  Every number the script computes with is a double that    *)
(*  holds an integer: Date.prototype.getTime returns a whole count of     *)
(*  milliseconds, and the fields derived from it are whole.  They are     *)
(*  modelled as Z.  Time values lie within 8.64e15 of zero, so they are   *)
(*  exact, but the difference of two of them can go beyond 2^53 and is    *)
(*  then rounded to 53 significant bits ([round_to_double]).  The         *)
(*  divisions that follow are [Math.floor (a / b)] with b one of 1000,    *)
(*  86400, 3600, 60; the engine is written with floor divisions (Z.div),  *)
(*  and section 12 shows that on time values this is what rounding each   *)
(*  quotient to a double and taking its floor gives.                      *)
(*  [%] on doubles is exact and is the truncating remainder (Z.rem).      *)
(* ===================================================================== *)

From Stdlib Require Import ZArith Lia Ascii.
From Stdlib Require Import DecimalString DecimalPos DecimalZ.
From stdpp Require Import gmap strings list fin_maps.

Local Open Scope Z_scope.

(* ===================================================================== *)
(** * 1. Configuration                                                    *)
(* ===================================================================== *)

(** Update interval (in milliseconds).  The other constant of the script,
    [EVENT_DATE], is the instant a date string denotes in the local time
    zone; the timer receives it as its [targetDate], and so does the
    model. *)
Definition UPDATE_INTERVAL : Z := 1000.

(* ===================================================================== *)
(** * 1a. Numbers                                                         *)
(* ===================================================================== *)

(** [Number.MAX_SAFE_INTEGER], 2^53 - 1. *)
Definition MAX_SAFE_INTEGER : Z := 9007199254740991.

(** The largest time value a Date holds, 100,000,000 days in ms, on
    either side of the epoch. *)
Definition MAX_TIME_VALUE : Z := 8640000000000000.

(** The significand [q] with what is left over, [r] out of [2 * half]:
    to the nearest, a tie to the even one. *)
Definition nearest_even (q r half : Z) : Z :=
  if r <? half then q
  else if half <? r then q + 1
  else if Z.even q then q else q + 1.

(** The double nearest to an integer: up to 53 bits the integer itself,
    beyond that the integer rounded to 53 significant bits (no overflow
    is modelled: a difference of time values is below 2^54). *)
Definition round_to_double (x : Z) : Z :=
  let a := Z.abs x in
  let e := Z.log2 a - 52 in
  if e <=? 0 then x
  else
    let ulp := 2 ^ e in
    Z.sgn x * (nearest_even (a / ulp) (a mod ulp) (2 ^ (e - 1)) * ulp).

(** [Math.floor (a / b)] on Numbers that hold integers, [0 <= a] and
    [0 < b]: the quotient is rounded to 53 significant bits, a tie to
    even, and then cut to its integer part. *)
Definition floor_of_quotient (a b : Z) : Z :=
  let q := a / b in
  if q =? 0 then (if (b - a) * 2 ^ 54 <=? b then 1 else 0)
  else
    let k := 52 - Z.log2 q in
    if 0 <=? k
    then nearest_even (a * 2 ^ k / b) (2 * ((a * 2 ^ k) mod b)) b / 2 ^ k
    else nearest_even (a / (b * 2 ^ (- k))) (2 * (a mod (b * 2 ^ (- k))))
           (b * 2 ^ (- k)) * 2 ^ (- k).

(* ===================================================================== *)
(** * 2. The countdown engine                                             *)
(* ===================================================================== *)

(** The object literal returned by [calculateTimeRemaining]. *)
Record TimeRemaining := mkTimeRemaining {
  days : Z;
  hours : Z;
  minutes : Z;
  seconds : Z;
  isExpired : bool
}.

(** [calculateTimeRemaining], with [this.targetDate] and the sampled
    [new Date().getTime()] as arguments. *)
Definition calculateTimeRemaining (targetDate now : Z) : TimeRemaining :=
  let timeRemaining := round_to_double (targetDate - now) in
  if timeRemaining <=? 0 then
    {| days := 0; hours := 0; minutes := 0; seconds := 0; isExpired := true |}
  else
    let totalSeconds := timeRemaining / 1000 in
    let days := totalSeconds / (24 * 60 * 60) in
    let hours := Z.rem totalSeconds (24 * 60 * 60) / (60 * 60) in
    let minutes := Z.rem totalSeconds (60 * 60) / 60 in
    let seconds := Z.rem totalSeconds 60 in
    {| days := days; hours := hours; minutes := minutes; seconds := seconds;
       isExpired := false |}.

(** The same with every division done the way the code does it, on
    doubles. *)
Definition calculateTimeRemaining_in_doubles (targetDate now : Z)
  : TimeRemaining :=
  let timeRemaining := round_to_double (targetDate - now) in
  if timeRemaining <=? 0 then
    {| days := 0; hours := 0; minutes := 0; seconds := 0; isExpired := true |}
  else
    let totalSeconds := floor_of_quotient timeRemaining 1000 in
    let days := floor_of_quotient totalSeconds (24 * 60 * 60) in
    let hours := floor_of_quotient (Z.rem totalSeconds (24 * 60 * 60)) (60 * 60) in
    let minutes := floor_of_quotient (Z.rem totalSeconds (60 * 60)) 60 in
    let seconds := Z.rem totalSeconds 60 in
    {| days := days; hours := hours; minutes := minutes; seconds := seconds;
       isExpired := false |}.

(** The second count a state stands for. *)
Definition total_seconds (r : TimeRemaining) : Z :=
  days r * 86400 + hours r * 3600 + minutes r * 60 + seconds r.

Definition expired_state : TimeRemaining :=
  {| days := 0; hours := 0; minutes := 0; seconds := 0; isExpired := true |}.

(* ===================================================================== *)
(** * 3. Number formatting                                                *)
(* ===================================================================== *)

(** The decimal numeral of an integer, with a minus sign when negative. *)
Definition decimal_numeral (n : Z) : string :=
  NilZero.string_of_int (Z.to_int n).

Definition decimal_digits (v : Z) : Z :=
  Z.of_nat (String.length (decimal_numeral v)).

(** Number-to-string looks for the decimal with the fewest significant
    digits that the Number is the value of.  [with_digits x k]: the
    decimals with [k] significant digits next to [x], below and above;
    of those that round to [x] the nearer one, the even one on a tie. *)
Definition with_digits (x k : Z) : option Z :=
  let p := 10 ^ (decimal_digits x - k) in
  let lo := x / p * p in
  let hi := lo + p in
  let ok v := round_to_double v =? x in
  match ok lo, ok hi with
  | true, true =>
      if (x - lo) <? (hi - x) then Some lo
      else if (hi - x) <? (x - lo) then Some hi
      else if Z.even (x / p) then Some lo else Some hi
  | true, false => Some lo
  | false, true => Some hi
  | false, false => None
  end.

Fixpoint shortest_from (fuel : nat) (k : Z) (x : Z) : Z :=
  match fuel with
  | O => x
  | S fuel' =>
      if decimal_digits x <? k then x
      else match with_digits x k with
           | Some v => v
           | None => shortest_from fuel' (k + 1) x
           end
  end.

(** Seventeen significant digits tell any two doubles apart. *)
Definition shortest_decimal (x : Z) : Z := shortest_from 17 1 x.

Fixpoint strip_trailing_zeros (s : string) : string :=
  match s with
  | EmptyString => EmptyString
  | String c rest =>
      match strip_trailing_zeros rest with
      | EmptyString =>
          if Ascii.eqb c "0" then EmptyString else String c EmptyString
      | rest' => String c rest'
      end
  end.

(** The exponent notation of a decimal of more than 21 digits: its first
    significant digit, the others after a point when there are any,
    and the exponent. *)
Definition exponent_form (v : Z) : string :=
  match strip_trailing_zeros (decimal_numeral v) with
  | EmptyString => EmptyString
  | String c EmptyString =>
      String c (String.append "e+" (decimal_numeral (decimal_digits v - 1)))
  | String c rest =>
      String c
        (String.append "."
           (String.append rest
              (String.append "e+" (decimal_numeral (decimal_digits v - 1)))))
  end.

(** [String(num)] on a Number that holds an integer.  A safe integer is
    its own shortest decimal (its neighbours are one away), so it is
    printed digit by digit; beyond, the shortest decimal is printed, in
    full up to 21 digits and in exponent notation from 1e21 on. *)
Definition String_of_number (num : Z) : string :=
  if Z.abs num <=? MAX_SAFE_INTEGER then decimal_numeral num
  else
    let v := shortest_decimal (Z.abs num) in
    String.append (if num <? 0 then "-" else "")
      (if decimal_digits v <=? 21 then decimal_numeral v else exponent_form v).

Fixpoint repeat_string (s : string) (count : nat) : string :=
  match count with
  | O => EmptyString
  | S count' => String.append s (repeat_string s count')
  end.

(** [String.prototype.padStart (targetLength, padString)]: a string that
    is long enough, or an empty filler, leaves the string as it is;
    otherwise the filler is repeated and cut to the missing length. *)
Definition padStart (targetLength : nat) (padString : string) (s : string)
  : string :=
  let stringLength := String.length s in
  if (targetLength <=? stringLength)%nat then s
  else if String.eqb padString EmptyString then s
  else
    let fillLen := (targetLength - stringLength)%nat in
    String.append (String.substring 0 fillLen (repeat_string padString fillLen)) s.

(** [formatNumber (num)]. *)
Definition formatNumber (num : Z) : string :=
  padStart 2 "0" (String_of_number num).

(** The integer a decimal numeral stands for, leading zeros allowed;
    [None] for a string that is not a numeral. *)
Definition read_decimal (s : string) : option Z :=
  option_map Z.of_int (NilZero.int_of_string s).

(* ===================================================================== *)
(** * 4. The browser the script runs in                                   *)
(* ===================================================================== *)

(** The properties of a DOM element that the script writes. *)
Record Element := mkElement {
  textContent : string;
  disabled : bool;
  style_opacity : string;
  style_cursor : string
}.

(** What the script does to its surroundings, in the order it happens. *)
Inductive Event :=
| console_log (msg : string)
| console_log_date (msg : string) (date : Z)
| console_error (msg : string)
| write_textContent (node : string) (text : string)
| write_disabled (node : string) (value : bool)
| write_style (node : string) (property : string) (value : string)
| setInterval_call (handle : positive) (delay : Z)
| clearInterval_call (handle : positive).

(** The document maps what a lookup is made by (an element id, or the one
    selector the script queries) to the element found, different keys
    finding different elements; an element reference held by the script
    is the key of its element, [None] being [null].  [intervals] holds the handles of the repeating timers that
    are active; [next_handle] is the handle the next [setInterval] gives
    out (handles are positive integers).  [events] is oldest first. *)
Record Browser := mkBrowser {
  document : gmap string Element;
  intervals : gset positive;
  next_handle : positive;
  events : list Event
}.

(** The fields of a [CountdownTimer] object. *)
Record CountdownTimer := mkCountdownTimer {
  targetDate : Z;
  timerInterval : option positive;
  daysElement : option string;
  hoursElement : option string;
  minutesElement : option string;
  secondsElement : option string
}.

Record State := mkState {
  browser : Browser;
  this : CountdownTimer
}.

(** How a call ends: normally with a value, or with a thrown error. *)
Inductive JsError := TypeError.

Inductive Completion (A : Type) :=
| Normal (a : A)
| Throw (e : JsError).
Arguments Normal {A} a.
Arguments Throw {A} e.

(** A method body: it runs on a state and leaves a state behind, also
    when it throws (what was written before the throw stays written). *)
Definition JS (A : Type) : Type := State -> Completion A * State.

#[export] Instance JS_ret : MRet JS := fun A a st => (Normal a, st).

#[export] Instance JS_bind : MBind JS := fun A B k m st =>
  match m st with
  | (Normal a, st') => k a st'
  | (Throw e, st') => (Throw e, st')
  end.

Definition throw {A : Type} (e : JsError) : JS A := fun st => (Throw e, st).

Definition get_this : JS CountdownTimer := fun st => (Normal (this st), st).

Definition get_document : JS (gmap string Element) :=
  fun st => (Normal (document (browser st)), st).

Definition emit (e : Event) (b : Browser) : Browser :=
  {| document := document b; intervals := intervals b;
     next_handle := next_handle b; events := events b ++ [e] |}.

Definition log_event (e : Event) : JS unit :=
  fun st => (Normal tt, {| browser := emit e (browser st); this := this st |}).

Definition update_document (f : gmap string Element -> gmap string Element)
  : JS unit :=
  fun st =>
    let b := browser st in
    (Normal tt,
     {| browser := {| document := f (document b); intervals := intervals b;
                      next_handle := next_handle b; events := events b |};
        this := this st |}).

(** [document.getElementById (id)] and [document.querySelector (sel)]:
    a reference to the element, or [null]. *)
Definition lookup_node (key : string) (doc : gmap string Element)
  : option string :=
  match doc !! key with
  | Some _ => Some key
  | None => None
  end.

Definition getElementById (id : string) : JS (option string) :=
  doc ← get_document; mret (lookup_node id doc).

Definition querySelector (selector : string) : JS (option string) :=
  doc ← get_document; mret (lookup_node selector doc).

Definition with_textContent (text : string) (e : Element) : Element :=
  {| textContent := text; disabled := disabled e;
     style_opacity := style_opacity e; style_cursor := style_cursor e |}.

Definition with_disabled (value : bool) (e : Element) : Element :=
  {| textContent := textContent e; disabled := value;
     style_opacity := style_opacity e; style_cursor := style_cursor e |}.

Definition with_opacity (value : string) (e : Element) : Element :=
  {| textContent := textContent e; disabled := disabled e;
     style_opacity := value; style_cursor := style_cursor e |}.

Definition with_cursor (value : string) (e : Element) : Element :=
  {| textContent := textContent e; disabled := disabled e;
     style_opacity := style_opacity e; style_cursor := value |}.

(** [el.textContent = text]: a TypeError when [el] is [null]. *)
Definition set_textContent (el : option string) (text : string) : JS unit :=
  match el with
  | None => throw TypeError
  | Some node =>
      update_document (alter (with_textContent text) node) ;;
      log_event (write_textContent node text)
  end.

Definition set_disabled (el : option string) (value : bool) : JS unit :=
  match el with
  | None => throw TypeError
  | Some node =>
      update_document (alter (with_disabled value) node) ;;
      log_event (write_disabled node value)
  end.

Definition set_style_opacity (el : option string) (value : string) : JS unit :=
  match el with
  | None => throw TypeError
  | Some node =>
      update_document (alter (with_opacity value) node) ;;
      log_event (write_style node "opacity" value)
  end.

Definition set_style_cursor (el : option string) (value : string) : JS unit :=
  match el with
  | None => throw TypeError
  | Some node =>
      update_document (alter (with_cursor value) node) ;;
      log_event (write_style node "cursor" value)
  end.

(** [setInterval (callback, delay)]: a fresh handle, now active.  The one
    callback the script registers is the timer's own [updateDisplay]. *)
Definition setInterval (delay : Z) : JS positive :=
  fun st =>
    let b := browser st in
    let h := next_handle b in
    (Normal h,
     {| browser := {| document := document b;
                      intervals := {[h]} ∪ intervals b;
                      next_handle := Pos.succ h;
                      events := events b ++ [setInterval_call h delay] |};
        this := this st |}).

Definition clearInterval (h : positive) : JS unit :=
  fun st =>
    let b := browser st in
    (Normal tt,
     {| browser := {| document := document b;
                      intervals := intervals b ∖ {[h]};
                      next_handle := next_handle b;
                      events := events b ++ [clearInterval_call h] |};
        this := this st |}).

Definition set_timerInterval (v : option positive) : JS unit :=
  fun st =>
    let t := this st in
    (Normal tt,
     {| browser := browser st;
        this := {| targetDate := targetDate t; timerInterval := v;
                   daysElement := daysElement t; hoursElement := hoursElement t;
                   minutesElement := minutesElement t;
                   secondsElement := secondsElement t |} |}).

(* ===================================================================== *)
(** * 5. class CountdownTimer                                             *)
(* ===================================================================== *)

(** An element reference in a condition: [null] is falsy. *)
Definition truthy (el : option string) : bool :=
  match el with
  | Some _ => true
  | None => false
  end.

(** [validateElements ()]. *)
Definition validateElements : JS unit :=
  t ← get_this;
  let elements :=
    [daysElement t; hoursElement t; minutesElement t; secondsElement t] in
  if existsb (fun el => bool_decide (el = None)) elements then
    log_event
      (console_error "ERROR: One or more countdown timer elements not found in DOM")
  else mret tt.

(** [new CountdownTimer (targetDate)], in a browser. *)
Definition new_CountdownTimer (target : Z) (b : Browser)
  : Completion unit * State :=
  let doc := document b in
  validateElements
    {| browser := b;
       this := {| targetDate := target;
                  timerInterval := None;
                  daysElement := lookup_node "days" doc;
                  hoursElement := lookup_node "hours" doc;
                  minutesElement := lookup_node "minutes" doc;
                  secondsElement := lookup_node "seconds" doc |} |}.

(** [stop ()].  A handle is a positive integer, so [this.timerInterval]
    is truthy exactly when it is not [null]. *)
Definition stop : JS unit :=
  t ← get_this;
  match timerInterval t with
  | Some h =>
      clearInterval h ;;
      set_timerInterval None ;;
      log_event (console_log "Countdown timer stopped")
  | None => mret tt
  end.

(** [handleExpiredEvent ()]. *)
Definition handleExpiredEvent : JS unit :=
  log_event (console_log "Event date reached!") ;;
  stop ;;
  comingSoonElement ← querySelector ".coming-soon h2";
  (if truthy comingSoonElement
   then set_textContent comingSoonElement "Event Started!"
   else mret tt) ;;
  notifyBtn ← getElementById "notify-btn";
  if truthy notifyBtn then
    set_disabled notifyBtn true ;;
    set_textContent notifyBtn "Event Live" ;;
    set_style_opacity notifyBtn "0.6" ;;
    set_style_cursor notifyBtn "not-allowed"
  else mret tt.

(** [updateDisplay ()], the clock reading [now] at the time of the call. *)
Definition updateDisplay (now : Z) : JS unit :=
  t ← get_this;
  let timeRemaining := calculateTimeRemaining (targetDate t) now in
  set_textContent (daysElement t) (formatNumber (days timeRemaining)) ;;
  set_textContent (hoursElement t) (formatNumber (hours timeRemaining)) ;;
  set_textContent (minutesElement t) (formatNumber (minutes timeRemaining)) ;;
  set_textContent (secondsElement t) (formatNumber (seconds timeRemaining)) ;;
  if isExpired timeRemaining then handleExpiredEvent else mret tt.

(** [start ()]. *)
Definition start (now : Z) : JS unit :=
  updateDisplay now ;;
  h ← setInterval UPDATE_INTERVAL;
  set_timerInterval (Some h) ;;
  t ← get_this;
  log_event (console_log_date "Countdown timer started. Target date:" (targetDate t)).

(** [reset ()]. *)
Definition reset (now : Z) : JS unit :=
  stop ;; start now.

(** One firing of the interval [h] at clock reading [now]: the scheduler
    runs the registered callback, [() => { this.updateDisplay(); }], when
    the interval is still active and does nothing when it was cleared. *)
Definition tick (h : positive) (now : Z) : JS unit :=
  fun st =>
    if bool_decide (h ∈ intervals (browser st)) then updateDisplay now st
    else (Normal tt, st).

(* ===================================================================== *)
(** * 6. Vocabulary of the properties                                     *)
(* ===================================================================== *)

(** The ids of the four numeric output slots. *)
Definition slot_ids : list string := ["days"; "hours"; "minutes"; "seconds"].

(** The text a document shows at a key. *)
Definition shown (key : string) (st : State) : option string :=
  textContent <$> document (browser st) !! key.

(** The writes to the four numeric slots among a list of events. *)
Definition is_slot_write (e : Event) : bool :=
  match e with
  | write_textContent node _ => bool_decide (node ∈ slot_ids)
  | _ => false
  end.

Definition slot_writes (evs : list Event) : list Event :=
  List.filter is_slot_write evs.

(** The four slot writes of one rendering of [r]: to the document, and
    as events. *)
Definition render (r : TimeRemaining) (doc : gmap string Element)
  : gmap string Element :=
  alter (with_textContent (formatNumber (seconds r))) "seconds"
    (alter (with_textContent (formatNumber (minutes r))) "minutes"
       (alter (with_textContent (formatNumber (hours r))) "hours"
          (alter (with_textContent (formatNumber (days r))) "days" doc))).

Definition render_events (r : TimeRemaining) : list Event :=
  [write_textContent "days" (formatNumber (days r));
   write_textContent "hours" (formatNumber (hours r));
   write_textContent "minutes" (formatNumber (minutes r));
   write_textContent "seconds" (formatNumber (seconds r))].

(** What the terminal handling leaves in the notify button. *)
Definition event_live (e : Element) : Element :=
  with_cursor "not-allowed"
    (with_opacity "0.6" (with_textContent "Event Live" (with_disabled true e))).

(** What a tick at or after the target writes into the numeric slots. *)
Definition zero_writes : list Event :=
  [write_textContent "days" "00"; write_textContent "hours" "00";
   write_textContent "minutes" "00"; write_textContent "seconds" "00"].

(** What the terminal handling does, in order, for a timer whose handle
    field is [ti] on a document [doc]: the log line, stopping the timer
    when one is held, the status text when its element exists, the four
    writes to the notify button when it exists. *)
Definition terminal_events (ti : option positive) (doc : gmap string Element)
  : list Event :=
  [console_log "Event date reached!"]
  ++ match ti with
     | Some h => [clearInterval_call h; console_log "Countdown timer stopped"]
     | None => []
     end
  ++ (if truthy (lookup_node ".coming-soon h2" doc)
      then [write_textContent ".coming-soon h2" "Event Started!"]
      else [])
  ++ (if truthy (lookup_node "notify-btn" doc)
      then [write_disabled "notify-btn" true;
            write_textContent "notify-btn" "Event Live";
            write_style "notify-btn" "opacity" "0.6";
            write_style "notify-btn" "cursor" "not-allowed"]
      else []).

(** The timer object holds what the constructor's lookups give on the
    document as it is now (nothing in the script adds or removes
    elements). *)
Definition bound (st : State) : Prop :=
  let doc := document (browser st) in
  let t := this st in
  daysElement t = lookup_node "days" doc /\
  hoursElement t = lookup_node "hours" doc /\
  minutesElement t = lookup_node "minutes" doc /\
  secondsElement t = lookup_node "seconds" doc.

Definition slots_present (doc : gmap string Element) : Prop :=
  Forall (fun id => is_Some (doc !! id)) slot_ids.

(** The timer object of a page that has the four slots. *)
Definition found_timer (target : Z) (handle : option positive)
  : CountdownTimer :=
  {| targetDate := target; timerInterval := handle;
     daysElement := Some "days"; hoursElement := Some "hours";
     minutesElement := Some "minutes"; secondsElement := Some "seconds" |}.

(** A page with every element the script looks up, for the examples. *)
Definition blank : Element :=
  {| textContent := ""; disabled := false;
     style_opacity := ""; style_cursor := "" |}.

Definition full_page : Browser :=
  {| document :=
       <["days" := blank]> (<["hours" := blank]> (<["minutes" := blank]>
       (<["seconds" := blank]> (<[".coming-soon h2" := blank]>
       (<["notify-btn" := blank]> ∅)))));
     intervals := ∅;
     next_handle := 1%positive;
     events := [] |}.

(** The same page without the element of id [days]. *)
Definition page_without_days : Browser :=
  {| document := delete "days" (document full_page);
     intervals := ∅;
     next_handle := 1%positive;
     events := [] |}.

(** Running a method for its final state, and for how it ended. *)
Definition exec {A : Type} (m : JS A) (st : State) : State := snd (m st).
Definition outcome {A : Type} (m : JS A) (st : State) : Completion A := fst (m st).

(** Two sessions for the examples, both counting down to instant 5000 on
    [full_page]: just constructed, and started at instant 100. *)
Definition fresh_session : State := snd (new_CountdownTimer 5000 full_page).

Definition running_session : State := exec (start 100) fresh_session.

(** A method keeps the session's bindings when, however it ends, the
    timer still holds the same target and the same element references and
    every lookup in the document still finds what it found before. *)
Definition same_bindings (st st' : State) : Prop :=
  targetDate (this st') = targetDate (this st) /\
  daysElement (this st') = daysElement (this st) /\
  hoursElement (this st') = hoursElement (this st) /\
  minutesElement (this st') = minutesElement (this st) /\
  secondsElement (this st') = secondsElement (this st) /\
  forall key, lookup_node key (document (browser st'))
              = lookup_node key (document (browser st)).

Definition keeps_bindings {A : Type} (m : JS A) : Prop :=
  forall st, same_bindings st (exec m st).

(** Unfolds the monad and the primitive operations of the browser; the
    lookups and the map operations stay folded. *)
Ltac js_run :=
  cbv [mbind JS_bind mret JS_ret throw get_this get_document
       set_textContent set_disabled set_style_opacity set_style_cursor
       update_document log_event emit setInterval clearInterval
       set_timerInterval querySelector getElementById
       exec outcome fst snd
       this browser document intervals next_handle events
       targetDate timerInterval
       daysElement hoursElement minutesElement secondsElement].

Ltac flatten_events := rewrite <- ?app_assoc; cbn [app].

(* ===================================================================== *)
(** * 6a. The rest of the script: cleanup, buttons, initialization        *)
(* ===================================================================== *)

(** The number of seconds the four slots show, when each of them shows a
    decimal numeral. *)
Definition displayed_seconds (st : State) : option Z :=
  d ← shown "days" st ≫= read_decimal;
  h ← shown "hours" st ≫= read_decimal;
  m ← shown "minutes" st ≫= read_decimal;
  s ← shown "seconds" st ≫= read_decimal;
  Some (d * 86400 + h * 3600 + m * 60 + s).

(** The listener the script registers for [beforeunload]: it sets up an
    interval of its own and clears that one. *)
Definition beforeunload_handler : JS unit :=
  allIntervals ← setInterval 1000;
  clearInterval allIntervals.

(** What can be done to a session once it is constructed. *)
Inductive Op :=
| op_start (now : Z)
| op_stop
| op_reset (now : Z)
| op_updateDisplay (now : Z)
| op_tick (handle : positive) (now : Z)
| op_beforeunload.

Definition run_op (o : Op) : JS unit :=
  match o with
  | op_start now => start now
  | op_stop => stop
  | op_reset now => reset now
  | op_updateDisplay now => updateDisplay now
  | op_tick handle now => tick handle now
  | op_beforeunload => beforeunload_handler
  end.

(** A sequence of them, one after the other; a throw that nothing
    catches ends the sequence. *)
Fixpoint run_ops (os : list Op) : JS unit :=
  match os with
  | [] => mret tt
  | o :: os' => run_op o ;; run_ops os'
  end.

Definition is_start (o : Op) : bool :=
  match o with
  | op_start _ => true
  | _ => false
  end.

(** The active intervals are exactly the one the session holds, and that
    handle is one the browser has given out. *)
Definition single_owner (st : State) : Prop :=
  match timerInterval (this st) with
  | Some hd =>
      intervals (browser st) = {[hd]} /\
      (hd < next_handle (browser st))%positive
  | None => intervals (browser st) = ∅
  end.

(** A session that is bound to its four slots and owns its interval. *)
Definition healthy (st : State) : Prop :=
  bound st /\ slots_present (document (browser st)) /\ single_owner st.

(** The part of a state that concerns interval handles: the handle the
    session holds, the active intervals, the next handle of the browser. *)
Record Handles := mkHandles {
  h_timer : option positive;
  h_active : gset positive;
  h_next : positive
}.

Definition handles_of (st : State) : Handles :=
  {| h_timer := timerInterval (this st);
     h_active := intervals (browser st);
     h_next := next_handle (browser st) |}.

(** The methods seen from the handles alone, on a page where nothing
    throws: [stop] releases the held handle; a rendering does that when
    the target is reached and nothing before; [setInterval] with the
    assignment to [this.timerInterval] takes a new handle and forgets
    the held one. *)
Definition hs_stop (hs : Handles) : Handles :=
  match h_timer hs with
  | Some hd =>
      {| h_timer := None; h_active := h_active hs ∖ {[hd]}; h_next := h_next hs |}
  | None => hs
  end.

Definition hs_render (target now : Z) (hs : Handles) : Handles :=
  if target <=? now then hs_stop hs else hs.

Definition hs_acquire (hs : Handles) : Handles :=
  {| h_timer := Some (h_next hs);
     h_active := {[h_next hs]} ∪ h_active hs;
     h_next := Pos.succ (h_next hs) |}.

Definition handle_step (target : Z) (o : Op) (hs : Handles) : Handles :=
  match o with
  | op_start now => hs_acquire (hs_render target now hs)
  | op_stop => hs_stop hs
  | op_reset now => hs_acquire (hs_render target now (hs_stop hs))
  | op_updateDisplay now => hs_render target now hs
  | op_tick handle now =>
      if bool_decide (handle ∈ h_active hs) then hs_render target now hs else hs
  | op_beforeunload =>
      {| h_timer := h_timer hs;
         h_active := ({[h_next hs]} ∪ h_active hs) ∖ {[h_next hs]};
         h_next := Pos.succ (h_next hs) |}
  end.

Definition handle_steps (target : Z) (os : list Op) (hs : Handles) : Handles :=
  fold_left (fun acc o => handle_step target o acc) os hs.

(** Handles of a session that owns its interval. *)
Definition hs_owned (hs : Handles) : Prop :=
  match h_timer hs with
  | Some hd => h_active hs = {[hd]} /\ (hd < h_next hs)%positive
  | None => h_active hs = ∅
  end.

(** Every active interval is one the browser has given out. *)
Definition handles_given_out (b : Browser) : Prop :=
  forall hd, hd ∈ intervals b -> (hd < next_handle b)%positive.

Definition keeps_given_out {A : Type} (m : JS A) : Prop :=
  forall st, handles_given_out (browser st) ->
             handles_given_out (browser (exec m st)).

(** What an event listener of the script is registered on, and which of
    the script's functions it is. *)
Inductive Target :=
| on_window
| on_document
| on_element (node : string).

Inductive Handler :=
| handler_sponsors_click
| handler_sponsors_keypress
| handler_dom_ready
| handler_error
| handler_unhandledrejection
| handler_beforeunload.

Record Listener := mkListener {
  listener_target : Target;
  listener_type : string;
  listener_handler : Handler
}.

(** The page: the browser, the timer object once [initializeApp] has
    made it (the interval callback keeps it alive), the registered
    listeners in registration order, and the alerts shown. *)
Record Page := mkPage {
  window : Browser;
  timer : option CountdownTimer;
  listeners : list Listener;
  alerts : list string
}.

Definition with_window (b : Browser) (p : Page) : Page :=
  {| window := b; timer := timer p; listeners := listeners p; alerts := alerts p |}.

Definition page_log (e : Event) (p : Page) : Page :=
  with_window (emit e (window p)) p.

(** [target.addEventListener (type, handler)]. *)
Definition addEventListener (target : Target) (type : string) (h : Handler)
    (p : Page) : Page :=
  {| window := window p; timer := timer p;
     listeners := listeners p ++ [mkListener target type h];
     alerts := alerts p |}.

(** [alert (msg)]. *)
Definition alert (msg : string) (p : Page) : Page :=
  {| window := window p; timer := timer p; listeners := listeners p;
     alerts := alerts p ++ [msg] |}.

Definition double_quote : string := String (Ascii.ascii_of_nat 34) EmptyString.

(** [handleSponsorsClick ()]; the element it looks up is not used. *)
Definition handleSponsorsClick (p : Page) : Page :=
  let btn := lookup_node "sponsors-btn" (document (window p)) in
  alert "Sponsor information coming soon!"
    (page_log
       (console_log
          (String.append "User clicked "
             (String.append double_quote
                (String.append "View Sponsors"
                   (String.append double_quote " button")))))
       p).

(** [initializeCTAButtons ()]. *)
Definition initializeCTAButtons (p : Page) : Page :=
  let sponsorsBtn := lookup_node "sponsors-btn" (document (window p)) in
  match sponsorsBtn with
  | None => page_log (console_error "ERROR: Sponsors button element not found") p
  | Some node =>
      addEventListener (on_element node) "keypress" handler_sponsors_keypress
        (addEventListener (on_element node) "click" handler_sponsors_click p)
  end.

(** [initializeApp ()], with [EVENT_DATE] and the clock reading at the
    time of the call; a throw of [start ()] leaves the function at once. *)
Definition initializeApp (EVENT_DATE now : Z) (p : Page)
  : Completion unit * Page :=
  let p1 :=
    page_log (console_log "🚀 Initializing INNOVISION 2K26 Coming Soon Page") p in
  match new_CountdownTimer EVENT_DATE (window p1) with
  | (Throw e, st) =>
      (Throw e, {| window := browser st; timer := Some (this st);
                   listeners := listeners p1; alerts := alerts p1 |})
  | (Normal _, st) =>
      match start now st with
      | (Throw e, st') =>
          (Throw e, {| window := browser st'; timer := Some (this st');
                       listeners := listeners p1; alerts := alerts p1 |})
      | (Normal _, st') =>
          let p2 :=
            initializeCTAButtons
              {| window := browser st'; timer := Some (this st');
                 listeners := listeners p1; alerts := alerts p1 |} in
          (Normal tt,
           page_log (console_log "✅ Application initialized successfully") p2)
      end
  end.

(** One listener called with an event whose [key] is [key].  The
    [beforeunload] listener works on the browser alone; it is run beside
    the page's timer object, or beside a placeholder when there is none. *)
Definition run_handler (EVENT_DATE now : Z) (key : string) (h : Handler)
    (p : Page) : Completion unit * Page :=
  match h with
  | handler_sponsors_click => (Normal tt, handleSponsorsClick p)
  | handler_sponsors_keypress =>
      if String.eqb key "Enter" || String.eqb key " "
      then (Normal tt, handleSponsorsClick p)
      else (Normal tt, p)
  | handler_dom_ready => initializeApp EVENT_DATE now p
  | handler_error => (Normal tt, page_log (console_error "❌ Global Error:") p)
  | handler_unhandledrejection =>
      (Normal tt, page_log (console_error "❌ Unhandled Promise Rejection:") p)
  | handler_beforeunload =>
      let st' :=
        exec beforeunload_handler
          {| browser := window p;
             this := default (found_timer 0 None) (timer p) |} in
      (Normal tt, with_window (browser st') p)
  end.

Definition Target_eqb (a b : Target) : bool :=
  match a, b with
  | on_window, on_window => true
  | on_document, on_document => true
  | on_element x, on_element y => String.eqb x y
  | _, _ => false
  end.

(** What the browser does with an exception that no one caught: it
    sends an [error] event to the window, whose listeners run in
    registration order. *)
Definition report_error (EVENT_DATE now : Z) (p : Page) : Page :=
  fold_left
    (fun q l =>
       if Target_eqb (listener_target l) on_window
          && String.eqb (listener_type l) "error"
       then snd (run_handler EVENT_DATE now "" (listener_handler l) q)
       else q)
    (listeners p) p.

(** One listener called for an event; when it throws, the exception is
    reported. *)
Definition call_listener (EVENT_DATE now : Z) (key : string) (h : Handler)
    (p : Page) : Page :=
  match run_handler EVENT_DATE now key h p with
  | (Normal _, p') => p'
  | (Throw _, p') => report_error EVENT_DATE now p'
  end.

(** An event of type [type] with key [key] arriving at [target]: the
    listeners registered for it run in registration order, each to its
    end whatever the one before did. *)
Definition dispatchEvent (EVENT_DATE now : Z) (target : Target)
    (type key : string) (p : Page) : Page :=
  fold_left
    (fun q l =>
       if Target_eqb (listener_target l) target && String.eqb (listener_type l) type
       then call_listener EVENT_DATE now key (listener_handler l) q
       else q)
    (listeners p) p.

(** The script from its first statement to its last, [loading] telling
    whether [document.readyState] is ['loading']: an error thrown by
    [initializeApp] when it is called directly ends the script there. *)
Definition run_script (loading : bool) (EVENT_DATE now : Z) (p : Page)
  : Completion unit * Page :=
  match
    (if loading
     then (Normal tt, addEventListener on_document "DOMContentLoaded" handler_dom_ready p)
     else initializeApp EVENT_DATE now p)
  with
  | (Throw e, p') => (Throw e, p')
  | (Normal _, p') =>
      (Normal tt,
       addEventListener on_window "beforeunload" handler_beforeunload
         (addEventListener on_window "unhandledrejection" handler_unhandledrejection
            (addEventListener on_window "error" handler_error p')))
  end.

(** A page as the browser hands it to the script. *)
Definition page_of (b : Browser) : Page :=
  {| window := b; timer := None; listeners := []; alerts := [] |}.

(** [full_page] with the sponsors button. *)
Definition page_with_button : Browser :=
  {| document := <["sponsors-btn" := blank]> (document full_page);
     intervals := ∅;
     next_handle := 1%positive;
     events := [] |}.

(* ===================================================================== *)
(** * 7. Properties of the countdown engine                               *)
(* ===================================================================== *)

Section Rounding.

Lemma round_exact (x : Z) :
  Z.abs x <= MAX_SAFE_INTEGER -> round_to_double x = x.
Proof.
  intros Hx. unfold round_to_double.
  destruct (Z.leb_spec (Z.log2 (Z.abs x) - 52) 0) as [_ | He]; [reflexivity |].
  exfalso.
  assert (Hpos : 0 < Z.abs x).
  { destruct (Z.eq_dec (Z.abs x) 0) as [E | E];
      [rewrite E in He; cbn in He; lia | lia]. }
  assert (Z.log2 (Z.abs x) < 53).
  { apply Z.log2_lt_pow2; [exact Hpos |]. unfold MAX_SAFE_INTEGER in Hx.
    change (2 ^ 53) with 9007199254740992. lia. }
  lia.
Qed.

Lemma round_opp (x : Z) : round_to_double (- x) = - round_to_double x.
Proof.
  unfold round_to_double. rewrite Z.abs_opp, Z.sgn_opp.
  destruct (_ <=? 0); [reflexivity | lia].
Qed.

Lemma round_small (x : Z) :
  0 <= x -> Z.log2 x - 52 <= 0 -> round_to_double x = x.
Proof.
  intros Hx He. unfold round_to_double. rewrite Z.abs_eq by lia.
  destruct (Z.leb_spec (Z.log2 x - 52) 0); [reflexivity | lia].
Qed.

Lemma nearest_even_bounds (q r half : Z) :
  q <= nearest_even q r half <= q + 1.
Proof.
  unfold nearest_even.
  destruct (r <? half), (half <? r), (Z.even q); lia.
Qed.

Lemma nearest_even_mono (q1 r1 q2 r2 half : Z) :
  q1 <= q2 -> (q1 = q2 -> r1 <= r2) ->
  nearest_even q1 r1 half <= nearest_even q2 r2 half.
Proof.
  intros Hq Hr.
  destruct (Z.eq_dec q1 q2) as [-> | Hne].
  - specialize (Hr eq_refl). unfold nearest_even.
    destruct (Z.ltb_spec r1 half), (Z.ltb_spec half r1),
      (Z.ltb_spec r2 half), (Z.ltb_spec half r2), (Z.even q2); lia.
  - pose proof (nearest_even_bounds q1 r1 half).
    pose proof (nearest_even_bounds q2 r2 half). lia.
Qed.

(** A positive integer of more than 53 bits, [e] bits too many. *)
Variable a : Z.
Hypothesis Ha : 0 < a.
Hypothesis He : 0 < Z.log2 a - 52.

Let e := Z.log2 a - 52.

Lemma round_big :
  round_to_double a
  = nearest_even (a / 2 ^ e) (a mod 2 ^ e) (2 ^ (e - 1)) * 2 ^ e.
Proof.
  unfold round_to_double.
  rewrite (Z.abs_eq a) by lia. rewrite (Z.sgn_pos a) by lia. fold e.
  destruct (Z.leb_spec e 0) as [Hle | _]; [subst e; lia |].
  apply Z.mul_1_l.
Qed.

Lemma significand_range : 2 ^ 52 <= a / 2 ^ e < 2 ^ 53.
Proof.
  pose proof (Z.log2_spec a Ha) as [Hlo Hhi].
  replace (Z.log2 a) with (52 + e) in Hlo by (subst e; lia).
  replace (Z.succ (Z.log2 a)) with (53 + e) in Hhi by (subst e; lia).
  rewrite Z.pow_add_r in Hlo, Hhi by (subst e; lia).
  assert (0 < 2 ^ e) by (apply Z.pow_pos_nonneg; lia).
  split.
  - apply Z.div_le_lower_bound; lia.
  - apply Z.div_lt_upper_bound; lia.
Qed.

(** Rounding stays within the binade, its ends included. *)
Lemma round_big_bounds :
  2 ^ Z.log2 a <= round_to_double a <= 2 ^ (Z.log2 a + 1).
Proof.
  rewrite round_big.
  pose proof significand_range as Hq.
  pose proof (nearest_even_bounds (a / 2 ^ e) (a mod 2 ^ e) (2 ^ (e - 1))) as Hm.
  replace (Z.log2 a) with (52 + e) by (subst e; lia).
  replace (52 + e + 1) with (53 + e) by lia.
  rewrite !Z.pow_add_r by (subst e; lia).
  assert (0 < 2 ^ e) by (apply Z.pow_pos_nonneg; lia).
  split; apply Z.mul_le_mono_nonneg_r; lia.
Qed.

End Rounding.

Lemma round_mono_pos (x y : Z) :
  0 < x -> x <= y -> round_to_double x <= round_to_double y.
Proof.
  intros Hx Hxy.
  assert (Hy : 0 < y) by lia.
  assert (Hlog : Z.log2 x <= Z.log2 y) by (apply Z.log2_le_mono; lia).
  destruct (Z.le_gt_cases (Z.log2 y - 52) 0) as [Hey | Hey].
  - rewrite !round_small by lia. exact Hxy.
  - pose proof (round_big_bounds y Hy Hey) as [Hylo _].
    destruct (Z.le_gt_cases (Z.log2 x - 52) 0) as [Hex | Hex].
    + rewrite (round_small x) by lia.
      pose proof (Z.log2_spec x Hx) as [_ Hhi].
      assert (2 ^ Z.succ (Z.log2 x) <= 2 ^ Z.log2 y)
        by (apply Z.pow_le_mono_r; lia).
      lia.
    + destruct (Z.eq_dec (Z.log2 x) (Z.log2 y)) as [Heq | Hne].
      * rewrite (round_big x Hx Hex), (round_big y Hy Hey), Heq.
        set (e := Z.log2 y - 52) in *.
        assert (Hu : 0 < 2 ^ e) by (apply Z.pow_pos_nonneg; lia).
        apply Z.mul_le_mono_nonneg_r; [lia |].
        apply nearest_even_mono.
        -- apply Z.div_le_mono; lia.
        -- intros Hq.
           pose proof (Z.div_mod x (2 ^ e) ltac:(lia)).
           pose proof (Z.div_mod y (2 ^ e) ltac:(lia)). nia.
      * pose proof (round_big_bounds x Hx Hex) as [_ Hxhi].
        assert (2 ^ (Z.log2 x + 1) <= 2 ^ Z.log2 y)
          by (apply Z.pow_le_mono_r; lia).
        lia.
Qed.

Lemma round_pos (x : Z) : 0 < x -> 0 < round_to_double x.
Proof.
  intros Hx.
  pose proof (round_mono_pos 1 x ltac:(lia) ltac:(lia)) as H.
  rewrite (round_exact 1) in H by (unfold MAX_SAFE_INTEGER; cbn; lia). lia.
Qed.

(** Rounding keeps the order of what it rounds. *)
Lemma round_mono (x y : Z) :
  x <= y -> round_to_double x <= round_to_double y.
Proof.
  intros Hxy.
  destruct (Z.lt_trichotomy x 0) as [Hx | [-> | Hx]].
  - destruct (Z.lt_trichotomy y 0) as [Hy | [-> | Hy]].
    + pose proof (round_mono_pos (- y) (- x) ltac:(lia) ltac:(lia)) as H.
      rewrite !round_opp in H. lia.
    + pose proof (round_pos (- x) ltac:(lia)) as H. rewrite round_opp in H.
      change (round_to_double 0) with 0. lia.
    + pose proof (round_pos (- x) ltac:(lia)) as H. rewrite round_opp in H.
      pose proof (round_pos y Hy). lia.
  - destruct (Z.eq_dec y 0) as [-> | Hy]; [lia |].
    pose proof (round_pos y ltac:(lia)). change (round_to_double 0) with 0. lia.
  - apply round_mono_pos; assumption.
Qed.

Lemma round_nonpos (x : Z) : x <= 0 -> round_to_double x <= 0.
Proof.
  intros Hx. pose proof (round_mono x 0 Hx) as H.
  change (round_to_double 0) with 0 in H. exact H.
Qed.

Lemma nearest_even_cases (q r half : Z) :
  nearest_even q r half = q \/ (nearest_even q r half = q + 1 /\ half <= r).
Proof.
  unfold nearest_even.
  destruct (Z.ltb_spec r half), (Z.ltb_spec half r), (Z.even q);
    auto; right; split; lia.
Qed.

(** A quotient that has bits to spare keeps its integer part when it is
    rounded: with [b * 2 ^ log2 (a / b)] below 2^53 the nearest double
    is less than a [b]-th away, too near to reach the next integer. *)
Lemma floor_of_quotient_exact (a b : Z) :
  0 <= a -> 0 < b < 2 ^ 53 -> b * 2 ^ Z.log2 (a / b) < 2 ^ 53 ->
  floor_of_quotient a b = a / b.
Proof.
  intros Ha Hb Hsmall. unfold floor_of_quotient.
  assert (Hq : 0 <= a / b) by (apply Z.div_pos; lia).
  destruct (Z.eqb_spec (a / b) 0) as [Hz | Hnz].
  - rewrite Hz.
    assert (a < b) by (apply Z.div_small_iff in Hz; lia).
    destruct (Z.leb_spec ((b - a) * 2 ^ 54) b) as [Hle | _]; [| reflexivity].
    exfalso. change (2 ^ 53) with 9007199254740992 in Hb.
    change (2 ^ 54) with 18014398509481984 in Hle. lia.
  - set (q := a / b) in *.
    assert (Hq1 : 0 < q) by lia.
    pose proof (Z.log2_spec q Hq1) as [Hlo Hhi].
    assert (Hl0 : 0 <= Z.log2 q) by apply Z.log2_nonneg.
    assert (Hk : 0 <= 52 - Z.log2 q).
    { assert (Z.log2 q < 53); [| lia].
      apply (Z.pow_lt_mono_r_iff 2); [lia | lia |]. nia. }
    destruct (Z.leb_spec 0 (52 - Z.log2 q)) as [_ | Hneg]; [| lia].
    set (k := 52 - Z.log2 q) in *.
    assert (HP : 0 < 2 ^ k) by (apply Z.pow_pos_nonneg; lia).
    assert (H2P : b < 2 * 2 ^ k).
    { assert (E : 2 ^ 53 = 2 * 2 ^ k * 2 ^ Z.log2 q).
      { replace 53 with (1 + k + Z.log2 q) by (subst k; lia).
        rewrite !Z.pow_add_r by lia. reflexivity. }
      assert (0 < 2 ^ Z.log2 q) by (apply Z.pow_pos_nonneg; lia).
      nia. }
    assert (HQ : a * 2 ^ k / b / 2 ^ k = q).
    { rewrite Z.div_div by lia.
      rewrite Z.div_mul_cancel_r by lia. reflexivity. }
    destruct (nearest_even_cases (a * 2 ^ k / b) (2 * ((a * 2 ^ k) mod b)) b)
      as [-> | [-> Hup]]; [exact HQ |].
    pose proof (Z.div_mod (a * 2 ^ k) b ltac:(lia)) as HA.
    pose proof (Z.mod_pos_bound (a * 2 ^ k) b ltac:(lia)) as HR.
    pose proof (Z.div_mod a b ltac:(lia)) as Ha'.
    pose proof (Z.mod_pos_bound a b ltac:(lia)) as Hr'.
    fold q in Ha'.
    set (Q := a * 2 ^ k / b) in *. set (R := (a * 2 ^ k) mod b) in *.
    set (P := 2 ^ k) in *.
    pose proof (Z.div_mod Q P ltac:(lia)) as HQP.
    pose proof (Z.mod_pos_bound Q P ltac:(lia)) as HQm.
    rewrite HQ in HQP.
    symmetry. apply Z.div_unique with (r := Q + 1 - q * P); [| lia].
    left. split; [nia |].
    assert (Q + 1 <> (q + 1) * P); [| nia].
    intros Heq. nia.
Qed.

Lemma floor_of_quotient_below (a b n : Z) :
  0 <= a -> 0 < b -> 0 < n -> a / b < 2 ^ n -> b * 2 ^ (n - 1) < 2 ^ 53 ->
  floor_of_quotient a b = a / b.
Proof.
  intros Ha Hb Hn Hq Hroom.
  assert (Hone : 1 <= 2 ^ (n - 1)) by (apply (Z.pow_le_mono_r 2 0); lia).
  apply floor_of_quotient_exact; [exact Ha | nia |].
  assert (H0 : 0 <= a / b) by (apply Z.div_pos; lia).
  destruct (Z.eq_dec (a / b) 0) as [-> | Hnz]; [cbn; nia |].
  assert (Z.log2 (a / b) < n) by (apply Z.log2_lt_pow2; lia).
  assert (2 ^ Z.log2 (a / b) <= 2 ^ (n - 1)) by (apply Z.pow_le_mono_r; lia).
  nia.
Qed.

Section Engine.

Variables target now : Z.

Lemma calculateTimeRemaining_expired :
  target - now <= 0 ->
  calculateTimeRemaining target now = expired_state.
Proof.
  intros Hle. unfold calculateTimeRemaining.
  pose proof (round_nonpos _ Hle).
  destruct (Z.leb_spec (round_to_double (target - now)) 0) as [_ | Hgt];
    [reflexivity | lia].
Qed.

Lemma calculateTimeRemaining_running :
  0 < target - now ->
  let totalSeconds := round_to_double (target - now) / 1000 in
  calculateTimeRemaining target now =
    {| days := totalSeconds / 86400;
       hours := totalSeconds mod 86400 / 3600;
       minutes := totalSeconds mod 3600 / 60;
       seconds := totalSeconds mod 60;
       isExpired := false |}.
Proof.
  intros Hpos totalSeconds. unfold calculateTimeRemaining.
  pose proof (round_pos _ Hpos).
  destruct (Z.leb_spec (round_to_double (target - now)) 0) as [Hle | _]; [lia |].
  assert (Hts : 0 <= totalSeconds) by (apply Z.div_pos; lia).
  fold totalSeconds.
  change (24 * 60 * 60) with 86400. change (60 * 60) with 3600.
  rewrite !Z.rem_mod_nonneg by lia. reflexivity.
Qed.

Lemma isExpired_iff :
  isExpired (calculateTimeRemaining target now) = true <-> target <= now.
Proof.
  destruct (Z.le_gt_cases (target - now) 0) as [Hle | Hgt].
  - rewrite calculateTimeRemaining_expired by assumption. cbn.
    split; [lia | reflexivity].
  - rewrite calculateTimeRemaining_running by assumption. cbn.
    split; [discriminate | lia].
Qed.

End Engine.

(** Days, hours, minutes and seconds put together again give the second
    count they were taken from. *)
Lemma decomposition_exact (t : Z) :
  t / 86400 * 86400 + t mod 86400 / 3600 * 3600 + t mod 3600 / 60 * 60 + t mod 60 = t.
Proof. Z.to_euclidean_division_equations. lia. Qed.

(** C1 as stated fails for instants further apart than 2^53 ms: from
    the start of the range of time values to its end, less one
    millisecond, the difference is rounded up by one and the fields
    stand for one second more than the exact floor. *)
Lemma exact_seconds_counterexample :
  ~ (forall target now : Z,
       now < target ->
       isExpired (calculateTimeRemaining target now) = false /\
       days (calculateTimeRemaining target now) * 86400
       + hours (calculateTimeRemaining target now) * 3600
       + minutes (calculateTimeRemaining target now) * 60
       + seconds (calculateTimeRemaining target now)
       = (target - now) / 1000).
Proof.
  intros H.
  destruct (H 8640000000000000 (-8639999999999999) ltac:(lia)) as [_ Hsum].
  vm_compute in Hsum. discriminate Hsum.
Qed.

(** C1, amended. For every pair of instants with now < target the
    result is not expired; whenever target - now is at most 2^53 - 1
    its fields give back the truncated second count exactly:
    days*86400 + hours*3600 + minutes*60 + seconds
    = floor ((target - now) / 1000); and for any two time values they
    give back the truncated second count of the difference as the code
    holds it, floor (fl (target - now) / 1000), fl rounding to the
    nearest double. *)
Theorem remaining_reconstructs_seconds (target now : Z) :
  now < target ->
  isExpired (calculateTimeRemaining target now) = false /\
  (target - now <= MAX_SAFE_INTEGER ->
   days (calculateTimeRemaining target now) * 86400
   + hours (calculateTimeRemaining target now) * 3600
   + minutes (calculateTimeRemaining target now) * 60
   + seconds (calculateTimeRemaining target now)
   = (target - now) / 1000) /\
  (Z.abs target <= MAX_TIME_VALUE -> Z.abs now <= MAX_TIME_VALUE ->
   days (calculateTimeRemaining target now) * 86400
   + hours (calculateTimeRemaining target now) * 3600
   + minutes (calculateTimeRemaining target now) * 60
   + seconds (calculateTimeRemaining target now)
   = round_to_double (target - now) / 1000).
Proof.
  intros Hlt.
  rewrite calculateTimeRemaining_running by lia. simpl.
  split; [reflexivity |]. rewrite decomposition_exact.
  split; [| reflexivity].
  intros Hsafe. rewrite round_exact by lia. reflexivity.
Qed.

Lemma remaining_reconstructs_seconds_witness :
  0 < 90061000 /\
  isExpired (calculateTimeRemaining 90061000 0) = false /\
  (90061000 - 0 <= MAX_SAFE_INTEGER ->
   days (calculateTimeRemaining 90061000 0) * 86400
   + hours (calculateTimeRemaining 90061000 0) * 3600
   + minutes (calculateTimeRemaining 90061000 0) * 60
   + seconds (calculateTimeRemaining 90061000 0)
   = (90061000 - 0) / 1000) /\
  (Z.abs 90061000 <= MAX_TIME_VALUE -> Z.abs 0 <= MAX_TIME_VALUE ->
   days (calculateTimeRemaining 90061000 0) * 86400
   + hours (calculateTimeRemaining 90061000 0) * 3600
   + minutes (calculateTimeRemaining 90061000 0) * 60
   + seconds (calculateTimeRemaining 90061000 0)
   = round_to_double (90061000 - 0) / 1000).
Proof.
  split; [lia | apply (remaining_reconstructs_seconds 90061000 0); lia].
Defined.

(** The scenario of the specification: 90,061 s is 1 d 1 h 1 min 1 s. *)
Example scenario_one_of_each :
  calculateTimeRemaining (0 + 90061000) 0 =
    {| days := 1; hours := 1; minutes := 1; seconds := 1; isExpired := false |}.
Proof. reflexivity. Qed.

(** C2. For every pair of instants with now >= target the engine returns
    exactly the clamped state, all four fields zero and expired true:
    nothing negative, no time since expiry. *)
Theorem remaining_clamped_when_due (target now : Z) :
  now >= target ->
  calculateTimeRemaining target now =
    {| days := 0; hours := 0; minutes := 0; seconds := 0; isExpired := true |}.
Proof.
  intros Hge. apply calculateTimeRemaining_expired. lia.
Qed.

Lemma remaining_clamped_when_due_witness :
  1000 >= 0 /\
  calculateTimeRemaining 0 1000 =
    {| days := 0; hours := 0; minutes := 0; seconds := 0; isExpired := true |}.
Proof.
  split; [lia | apply (remaining_clamped_when_due 0 1000); lia].
Defined.

(** C3 as stated fails: half a second before the target the state is not
    expired, and its four fields are all zero. *)
Lemma positive_duration_counterexample :
  ~ (forall target now : Z,
       let r := calculateTimeRemaining target now in
       (isExpired r = false -> total_seconds r > 0) /\
       (isExpired r = true ->
        days r = 0 /\ hours r = 0 /\ minutes r = 0 /\ seconds r = 0)).
Proof.
  intros H. destruct (H 500 0) as [Hpos _].
  vm_compute in Hpos. specialize (Hpos eq_refl). discriminate Hpos.
Qed.

(** C3, amended. For every state the engine produces: when expired is
    false, the time left in milliseconds is strictly positive and the
    four fields stand for a duration that is not negative and is
    strictly positive as soon as a full second is left; when expired is
    true, all four fields are zero. *)
Theorem state_invariant (target now : Z) :
  let r := calculateTimeRemaining target now in
  (isExpired r = false ->
     0 < target - now /\
     0 <= total_seconds r /\
     (1000 <= target - now -> 0 < total_seconds r)) /\
  (isExpired r = true ->
     days r = 0 /\ hours r = 0 /\ minutes r = 0 /\ seconds r = 0).
Proof.
  intros r. subst r.
  destruct (Z.le_gt_cases (target - now) 0) as [Hle | Hgt].
  - rewrite calculateTimeRemaining_expired by lia. simpl.
    split; [discriminate | auto].
  - rewrite calculateTimeRemaining_running by lia. simpl.
    split; [intros _ | discriminate].
    unfold total_seconds; simpl. rewrite decomposition_exact.
    pose proof (round_pos _ Hgt) as Hpos.
    repeat split; try lia.
    + apply Z.div_pos; lia.
    + intros Hfull. apply Z.div_str_pos.
      pose proof (round_mono 1000 (target - now) Hfull) as Hm.
      rewrite (round_exact 1000) in Hm by (unfold MAX_SAFE_INTEGER; cbn; lia).
      lia.
Qed.

(** C6. For every result of the engine that is not expired, hours is in
    [0,23], minutes in [0,59] and seconds in [0,59]. *)
Theorem field_ranges (target now : Z) :
  isExpired (calculateTimeRemaining target now) = false ->
  0 <= hours (calculateTimeRemaining target now) <= 23 /\
  0 <= minutes (calculateTimeRemaining target now) <= 59 /\
  0 <= seconds (calculateTimeRemaining target now) <= 59.
Proof.
  intros Hrun.
  destruct (Z.le_gt_cases (target - now) 0) as [Hle | Hgt].
  - rewrite calculateTimeRemaining_expired in Hrun by lia. discriminate Hrun.
  - rewrite calculateTimeRemaining_running by lia. simpl.
    Z.to_euclidean_division_equations. lia.
Qed.

Lemma field_ranges_witness :
  0 <= hours (calculateTimeRemaining 86399999 0) <= 23 /\
  0 <= minutes (calculateTimeRemaining 86399999 0) <= 59 /\
  0 <= seconds (calculateTimeRemaining 86399999 0) <= 59.
Proof.
  apply (field_ranges 86399999 0). reflexivity.
Defined.

(* ===================================================================== *)
(** * 8. Properties of the number formatter                               *)
(* ===================================================================== *)

Section Formatting.

Lemma length_append (a b : string) :
  String.length (String.append a b) = (String.length a + String.length b)%nat.
Proof. induction a as [| c a IH]; simpl; [reflexivity | now rewrite IH]. Qed.

Lemma length_zeros (k : nat) : String.length (repeat_string "0" k) = k.
Proof.
  induction k as [| k IH]; [reflexivity |].
  change (repeat_string "0" (S k)) with (String "0"%char (repeat_string "0" k)).
  change (S (String.length (repeat_string "0" k)) = S k).
  now rewrite IH.
Qed.

Lemma substring_zeros (k : nat) :
  String.substring 0 k (repeat_string "0" k) = repeat_string "0" k.
Proof.
  induction k as [| k IH]; [reflexivity |].
  change (repeat_string "0" (S k)) with (String "0"%char (repeat_string "0" k)).
  change (String "0"%char (String.substring 0 k (repeat_string "0" k))
          = String "0"%char (repeat_string "0" k)).
  now rewrite IH.
Qed.

(** Padding with ["0"] puts the missing number of zeros in front. *)
Lemma padStart_zeros (targetLength : nat) (s : string) :
  padStart targetLength "0" s =
    String.append (repeat_string "0" (targetLength - String.length s)) s.
Proof.
  unfold padStart.
  destruct (Nat.leb_spec targetLength (String.length s)) as [Hle | Hlt].
  - replace (targetLength - String.length s)%nat with 0%nat by lia.
    reflexivity.
  - simpl String.eqb. cbv iota.
    now rewrite substring_zeros.
Qed.

Lemma String_of_number_safe (n : Z) :
  Z.abs n <= MAX_SAFE_INTEGER -> String_of_number n = decimal_numeral n.
Proof.
  intros Hn. unfold String_of_number.
  destruct (Z.leb_spec (Z.abs n) MAX_SAFE_INTEGER); [reflexivity | lia].
Qed.

(** The text of a non-negative safe integer: digits only, at least one. *)
Lemma String_of_number_nonneg (n : Z) :
  0 <= n <= MAX_SAFE_INTEGER ->
  exists d, d <> Decimal.Nil /\ Z.to_int n = Decimal.Pos d /\
            String_of_number n = NilEmpty.string_of_uint d.
Proof.
  intros Hn. rewrite String_of_number_safe by lia. unfold decimal_numeral.
  destruct n as [| p | p]; [| | lia].
  - exists (Decimal.D0 Decimal.Nil). repeat split. discriminate.
  - exists (Pos.to_uint p).
    pose proof (Unsigned.to_uint_nonnil p) as Hnil.
    repeat split; [assumption |].
    simpl. unfold NilZero.string_of_uint.
    destruct (Pos.to_uint p); [congruence | reflexivity ..].
Qed.

Lemma read_zeros (k : nat) (d : Decimal.uint) :
  d <> Decimal.Nil ->
  read_decimal
    (String.append (repeat_string "0" k) (NilEmpty.string_of_uint d))
  = Some (Z.of_int (Decimal.Pos d)).
Proof.
  intros Hd.
  assert (Hu : forall k, exists d',
             NilEmpty.uint_of_string
               (String.append (repeat_string "0" k) (NilEmpty.string_of_uint d))
             = Some d' /\ d' <> Decimal.Nil /\
             Z.of_int (Decimal.Pos d') = Z.of_int (Decimal.Pos d)).
  { induction k0 as [| k0 (d' & Hd' & Hnil & Hval)].
    - exists d.
      change (String.append (repeat_string "0" 0) (NilEmpty.string_of_uint d))
        with (NilEmpty.string_of_uint d).
      rewrite NilEmpty.usu. auto.
    - exists (Decimal.D0 d').
      change (String.append (repeat_string "0" (S k0)) (NilEmpty.string_of_uint d))
        with (String "0"%char
                (String.append (repeat_string "0" k0) (NilEmpty.string_of_uint d))).
      cbn [NilEmpty.uint_of_string]. rewrite Hd'.
      repeat split; [discriminate | exact Hval]. }
  destruct (Hu k) as (d' & Hd' & Hnil & Hval).
  unfold read_decimal, NilZero.int_of_string.
  destruct (String.append (repeat_string "0" k) (NilEmpty.string_of_uint d))
    as [| a s'] eqn:Hs.
  - simpl in Hd'. congruence.
  - destruct (Ascii.eqb_spec a "-"%char) as [-> | Hminus].
    + simpl in Hd'. destruct (NilEmpty.uint_of_string s'); discriminate.
    + unfold NilZero.uint_of_string. rewrite Hd'. cbn [option_map].
      f_equal. exact Hval.
Qed.

End Formatting.

(** C7 as stated fails from 1e21 on: there the text is in exponent
    notation, not the decimal numeral of the integer with zeros in
    front. *)
Lemma exponent_notation_counterexample :
  ~ (forall n : Z,
       0 <= n ->
       formatNumber n =
         String.append
           (repeat_string "0" (2 - String.length (decimal_numeral n)))
           (decimal_numeral n)).
Proof.
  intros H.
  specialize (H 1000000000000000000000 ltac:(lia)).
  vm_compute in H. discriminate H.
Qed.

Example formatNumber_1e21 : formatNumber 1000000000000000000000 = "1e+21".
Proof. vm_compute. reflexivity. Qed.

(** C7, amended. The formatter renders every non-negative safe integer
    (at most 2^53 - 1) as its decimal numeral with zeros put in front up
    to width two, never cut: the result is at least two characters long
    and reads back as the same integer; 5 renders as "05" and 123 as
    "123". *)
Theorem formatNumber_pads_without_truncation (n : Z) :
  0 <= n <= MAX_SAFE_INTEGER ->
  String_of_number n = decimal_numeral n /\
  formatNumber n =
    String.append (repeat_string "0" (2 - String.length (String_of_number n)))
                  (String_of_number n) /\
  (2 <= String.length (formatNumber n))%nat /\
  read_decimal (String_of_number n) = Some n /\
  read_decimal (formatNumber n) = Some n /\
  formatNumber 5 = "05" /\
  formatNumber 123 = "123".
Proof.
  intros Hn. split; [apply String_of_number_safe; lia |].
  destruct (String_of_number_nonneg n Hn) as (d & Hd & Hint & Hstr).
  assert (Hval : Z.of_int (Decimal.Pos d) = n)
    by (rewrite <- Hint; apply DecimalZ.of_to).
  unfold formatNumber. rewrite padStart_zeros.
  repeat split.
  - rewrite length_append, length_zeros. lia.
  - rewrite Hstr, <- Hval. apply (read_zeros 0 d Hd).
  - rewrite Hstr, <- Hval. apply (read_zeros _ d Hd).
Qed.

Lemma formatNumber_pads_without_truncation_witness :
  String_of_number 7 = decimal_numeral 7 /\
  formatNumber 7 =
    String.append (repeat_string "0" (2 - String.length (String_of_number 7)))
                  (String_of_number 7) /\
  (2 <= String.length (formatNumber 7))%nat /\
  read_decimal (String_of_number 7) = Some 7 /\
  read_decimal (formatNumber 7) = Some 7 /\
  formatNumber 5 = "05" /\
  formatNumber 123 = "123".
Proof.
  apply (formatNumber_pads_without_truncation 7). unfold MAX_SAFE_INTEGER. lia.
Defined.

(* ===================================================================== *)
(** * 9. Running the methods                                              *)
(* ===================================================================== *)

Section Lookups.

Variable doc : gmap string Element.

Lemma lookup_node_alter (f : Element -> Element) (k key : string) :
  lookup_node key (alter f k doc) = lookup_node key doc.
Proof.
  unfold lookup_node. rewrite lookup_alter.
  case_decide; subst; destruct (doc !! key); reflexivity.
Qed.

Lemma lookup_node_Some (key node : string) :
  lookup_node key doc = Some node -> node = key /\ is_Some (doc !! key).
Proof.
  unfold lookup_node. destruct (doc !! key) eqn:E; [| discriminate].
  intros [= <-]. eauto.
Qed.

Lemma lookup_node_None (key : string) :
  lookup_node key doc = None -> doc !! key = None.
Proof.
  unfold lookup_node. destruct (doc !! key); [discriminate | reflexivity].
Qed.

Lemma lookup_node_present (key : string) :
  is_Some (doc !! key) -> lookup_node key doc = Some key.
Proof. intros [e He]. unfold lookup_node. now rewrite He. Qed.

End Lookups.

(** With all four slots in the document, a bound timer holds them. *)
Lemma bound_present (st : State) :
  bound st -> slots_present (document (browser st)) ->
  daysElement (this st) = Some "days" /\
  hoursElement (this st) = Some "hours" /\
  minutesElement (this st) = Some "minutes" /\
  secondsElement (this st) = Some "seconds".
Proof.
  intros (Hd & Hh & Hm & Hs) Hall.
  unfold slots_present, slot_ids in Hall.
  rewrite !Forall_cons in Hall. destruct Hall as (Pd & Ph & Pm & Ps & _).
  rewrite Hd, Hh, Hm, Hs.
  repeat split; now apply lookup_node_present.
Qed.

(** The constructor binds the timer, reports a missing slot, and never
    throws. *)
Lemma new_CountdownTimer_spec (target : Z) (b : Browser) :
  let st := snd (new_CountdownTimer target b) in
  fst (new_CountdownTimer target b) = Normal tt /\
  bound st /\
  targetDate (this st) = target /\
  timerInterval (this st) = None /\
  document (browser st) = document b /\
  intervals (browser st) = intervals b /\
  next_handle (browser st) = next_handle b.
Proof.
  destruct b as [doc ints nh evs].
  unfold new_CountdownTimer, validateElements, bound. js_run.
  destruct (existsb _ _); js_run; repeat split.
Qed.

Section Methods.

Variables (doc : gmap string Element) (ints : gset positive) (nh : positive).
Variables (evs : list Event) (tgt : Z).
Variables d h m s : option string.

(** [stop] with a handle held: the interval is cleared, the field is
    [null] again, and the fact is logged. *)
Lemma stop_held (hd : positive) :
  stop {| browser := mkBrowser doc ints nh evs;
          this := mkCountdownTimer tgt (Some hd) d h m s |}
  = (Normal tt,
     {| browser :=
          mkBrowser doc (ints ∖ {[hd]}) nh
            (evs ++ [clearInterval_call hd; console_log "Countdown timer stopped"]);
        this := mkCountdownTimer tgt None d h m s |}).
Proof. unfold stop. js_run. flatten_events. reflexivity. Qed.

(** [stop] with no handle held does nothing at all. *)
Lemma stop_idle :
  stop {| browser := mkBrowser doc ints nh evs;
          this := mkCountdownTimer tgt None d h m s |}
  = (Normal tt,
     {| browser := mkBrowser doc ints nh evs;
        this := mkCountdownTimer tgt None d h m s |}).
Proof. reflexivity. Qed.

(** The terminal handling never throws; it leaves the timer without a
    handle, emits [terminal_events] and touches no numeric slot. *)
Lemma handleExpiredEvent_spec (ti : option positive) :
  exists doc',
    handleExpiredEvent
      {| browser := mkBrowser doc ints nh evs;
         this := mkCountdownTimer tgt ti d h m s |}
    = (Normal tt,
       {| browser :=
            mkBrowser doc'
              (match ti with Some hd => ints ∖ {[hd]} | None => ints end)
              nh (evs ++ terminal_events ti doc);
          this := mkCountdownTimer tgt None d h m s |}) /\
    (forall key, key ∈ slot_ids -> doc' !! key = doc !! key) /\
    (forall key, lookup_node key doc' = lookup_node key doc) /\
    doc' !! ".coming-soon h2"
    = with_textContent "Event Started!" <$> doc !! ".coming-soon h2" /\
    doc' !! "notify-btn" = event_live <$> doc !! "notify-btn".
Proof.
  unfold handleExpiredEvent, stop, terminal_events.
  destruct (lookup_node ".coming-soon h2" doc) as [cs |] eqn:Hcs;
    [apply lookup_node_Some in Hcs as Hcs'; destruct Hcs' as [-> _] |];
    (destruct (lookup_node "notify-btn" doc) as [nb |] eqn:Hnb;
     [apply lookup_node_Some in Hnb as Hnb'; destruct Hnb' as [-> _] |]);
    destruct ti as [hd |]; js_run;
    rewrite ?Hcs; cbv [truthy]; js_run;
    rewrite ?lookup_node_alter, ?Hnb; js_run;
    flatten_events;
    (eexists; split; [reflexivity |]; split; [| split; [| split]];
     [ intros key; unfold slot_ids; rewrite !elem_of_cons, elem_of_nil;
       intros [-> | [-> | [-> | [-> | []]]]];
       rewrite ?lookup_alter_ne by done; reflexivity
     | intros key; rewrite ?lookup_node_alter; reflexivity
     | rewrite ?lookup_alter_ne by done; rewrite ?lookup_alter_eq;
       rewrite ?(lookup_node_None _ _ Hcs); reflexivity
     | rewrite ?lookup_alter_eq; rewrite ?lookup_alter_ne by done;
       rewrite ?(lookup_node_None _ _ Hnb);
       destruct (doc !! "notify-btn"); reflexivity ]).
Qed.

End Methods.

Section Presenter.

Variables (doc : gmap string Element) (ints : gset positive) (nh : positive).
Variables (evs : list Event) (tgt : Z) (ti : option positive).

Lemma render_lookup_node (r : TimeRemaining) (key : string) :
  lookup_node key (render r doc) = lookup_node key doc.
Proof. unfold render. now rewrite !lookup_node_alter. Qed.

Lemma render_slot (r : TimeRemaining) :
  render r doc !! "days" = with_textContent (formatNumber (days r)) <$> doc !! "days" /\
  render r doc !! "hours" = with_textContent (formatNumber (hours r)) <$> doc !! "hours" /\
  render r doc !! "minutes" = with_textContent (formatNumber (minutes r)) <$> doc !! "minutes" /\
  render r doc !! "seconds" = with_textContent (formatNumber (seconds r)) <$> doc !! "seconds".
Proof.
  unfold render.
  repeat split;
    rewrite ?lookup_alter_ne by done; rewrite lookup_alter_eq;
    rewrite ?lookup_alter_ne by done; reflexivity.
Qed.

Lemma render_other (r : TimeRemaining) (key : string) :
  key ∉ slot_ids -> render r doc !! key = doc !! key.
Proof.
  unfold slot_ids, render. rewrite !not_elem_of_cons.
  intros (? & ? & ? & ? & _). now rewrite !lookup_alter_ne by done.
Qed.

Lemma terminal_events_render (r : TimeRemaining) :
  terminal_events ti (render r doc) = terminal_events ti doc.
Proof. unfold terminal_events. now rewrite !render_lookup_node. Qed.

(** Every call of [updateDisplay] on a timer with its four slots first
    renders the sample. *)
Lemma updateDisplay_renders (now : Z) :
  let r := calculateTimeRemaining tgt now in
  updateDisplay now {| browser := mkBrowser doc ints nh evs; this := found_timer tgt ti |}
  = (if isExpired r then handleExpiredEvent else mret tt)
      {| browser := mkBrowser (render r doc) ints nh (evs ++ render_events r);
         this := found_timer tgt ti |}.
Proof.
  intros r. unfold updateDisplay, found_timer. js_run. fold r.
  flatten_events. reflexivity.
Qed.

(** A tick before the target renders and does nothing else. *)
Lemma updateDisplay_running (now : Z) :
  now < tgt ->
  let r := calculateTimeRemaining tgt now in
  updateDisplay now {| browser := mkBrowser doc ints nh evs; this := found_timer tgt ti |}
  = (Normal tt,
     {| browser := mkBrowser (render r doc) ints nh (evs ++ render_events r);
        this := found_timer tgt ti |}).
Proof.
  intros Hlt r. rewrite updateDisplay_renders. fold r.
  assert (Hrun : isExpired r = false).
  { destruct (isExpired r) eqn:E; [| reflexivity].
    apply isExpired_iff in E. lia. }
  now rewrite Hrun.
Qed.

(** A tick at or after the target renders zeros, then runs the terminal
    handling. *)
Lemma updateDisplay_expired (now : Z) :
  tgt <= now ->
  exists doc',
    updateDisplay now {| browser := mkBrowser doc ints nh evs; this := found_timer tgt ti |}
    = (Normal tt,
       {| browser :=
            mkBrowser doc'
              (match ti with Some hd => ints ∖ {[hd]} | None => ints end)
              nh (evs ++ zero_writes ++ terminal_events ti doc);
          this := found_timer tgt None |}) /\
    (forall key, key ∈ slot_ids ->
                 doc' !! key = with_textContent "00" <$> doc !! key) /\
    (forall key, lookup_node key doc' = lookup_node key doc) /\
    doc' !! ".coming-soon h2"
    = with_textContent "Event Started!" <$> doc !! ".coming-soon h2" /\
    doc' !! "notify-btn" = event_live <$> doc !! "notify-btn".
Proof.
  intros Hdue. rewrite updateDisplay_renders.
  rewrite calculateTimeRemaining_expired by lia.
  cbn [isExpired expired_state].
  destruct (handleExpiredEvent_spec (render expired_state doc) ints nh
              (evs ++ render_events expired_state) tgt
              (Some "days") (Some "hours") (Some "minutes") (Some "seconds") ti)
    as (doc' & Hrun & Hslots & Hnodes & Hcs & Hnb).
  exists doc'. unfold found_timer. rewrite Hrun, terminal_events_render.
  split; [| split; [| split; [| split]]].
  - rewrite <- app_assoc. reflexivity.
  - intros key Hkey. rewrite (Hslots key Hkey).
    destruct (render_slot expired_state) as (Rd & Rh & Rm & Rs).
    revert Hkey. unfold slot_ids. rewrite !elem_of_cons, elem_of_nil.
    intros [-> | [-> | [-> | [-> | []]]]]; assumption.
  - intros key. now rewrite Hnodes, render_lookup_node.
  - rewrite Hcs, render_other; [reflexivity |].
    unfold slot_ids. rewrite !not_elem_of_cons. repeat split; try done.
    apply not_elem_of_nil.
  - rewrite Hnb, render_other; [reflexivity |].
    unfold slot_ids. rewrite !not_elem_of_cons. repeat split; try done.
    apply not_elem_of_nil.
Qed.

(** [start] before the target: one rendering, then a fresh interval,
    whatever handle the timer held before. *)
Lemma start_running (now : Z) :
  now < tgt ->
  let r := calculateTimeRemaining tgt now in
  start now {| browser := mkBrowser doc ints nh evs; this := found_timer tgt ti |}
  = (Normal tt,
     {| browser :=
          mkBrowser (render r doc) ({[nh]} ∪ ints) (Pos.succ nh)
            (evs ++ render_events r
                 ++ [setInterval_call nh UPDATE_INTERVAL;
                     console_log_date "Countdown timer started. Target date:" tgt]);
        this := found_timer tgt (Some nh) |}).
Proof.
  intros Hlt r. unfold start.
  cbv [mbind JS_bind]. rewrite updateDisplay_running by assumption.
  unfold found_timer. js_run. fold r. flatten_events. reflexivity.
Qed.

End Presenter.

(** A bound timer on a page with the four slots, spelt out. *)
Lemma bound_shape (st : State) :
  bound st -> slots_present (document (browser st)) ->
  st = {| browser :=
            mkBrowser (document (browser st)) (intervals (browser st))
                      (next_handle (browser st)) (events (browser st));
          this := found_timer (targetDate (this st)) (timerInterval (this st)) |}.
Proof.
  intros Hb Hp. destruct (bound_present st Hb Hp) as (Hd & Hh & Hm & Hs).
  destruct st as [[doc ints nh evs] [tgt ti d h m s]]. cbn in *.
  now subst.
Qed.

Lemma slots_present_lookup (doc : gmap string Element) (key : string) :
  slots_present doc -> key ∈ slot_ids -> is_Some (doc !! key).
Proof.
  unfold slots_present. rewrite Forall_forall. auto.
Qed.

(** The terminal handling writes to no numeric slot. *)
Lemma slot_writes_terminal (ti : option positive) (doc : gmap string Element) :
  slot_writes (terminal_events ti doc) = [].
Proof.
  unfold terminal_events.
  destruct ti, (truthy (lookup_node ".coming-soon h2" doc)),
    (truthy (lookup_node "notify-btn" doc)); reflexivity.
Qed.

Lemma slot_writes_app (xs ys : list Event) :
  slot_writes (xs ++ ys) = slot_writes xs ++ slot_writes ys.
Proof. unfold slot_writes. apply List.filter_app. Qed.

(** A timer that holds the four slots is bound on a page that has them. *)
Lemma found_timer_bound (doc : gmap string Element) (ints : gset positive)
      (nh : positive) (evs : list Event) (tgt : Z) (ti : option positive) :
  slots_present doc ->
  bound {| browser := mkBrowser doc ints nh evs; this := found_timer tgt ti |}.
Proof.
  intros Hp. unfold bound. cbn.
  repeat split; symmetry; apply lookup_node_present;
    apply (slots_present_lookup _ _ Hp); unfold slot_ids; set_solver.
Qed.

(** Rewriting the text of the slots keeps them present. *)
Lemma slots_present_rewritten (doc doc' : gmap string Element) (text : string) :
  slots_present doc ->
  (forall key, key ∈ slot_ids -> doc' !! key = with_textContent text <$> doc !! key) ->
  slots_present doc'.
Proof.
  intros Hp Hslots. unfold slots_present. rewrite Forall_forall.
  intros id Hid. rewrite (Hslots id Hid).
  destruct (slots_present_lookup _ id Hp Hid) as [e ->]. cbn. eauto.
Qed.

(** The state a tick at or after the target leaves behind. *)
Lemma expired_tick_state (st : State) (now : Z) :
  bound st -> slots_present (document (browser st)) ->
  targetDate (this st) <= now ->
  exists doc',
    updateDisplay now st
    = (Normal tt,
       {| browser :=
            mkBrowser doc'
              (match timerInterval (this st) with
               | Some hd => intervals (browser st) ∖ {[hd]}
               | None => intervals (browser st)
               end)
              (next_handle (browser st))
              (events (browser st) ++ zero_writes
                 ++ terminal_events (timerInterval (this st))
                      (document (browser st)));
          this := found_timer (targetDate (this st)) None |}) /\
    (forall key, key ∈ slot_ids ->
                 doc' !! key = with_textContent "00" <$> document (browser st) !! key) /\
    doc' !! ".coming-soon h2"
    = with_textContent "Event Started!" <$> document (browser st) !! ".coming-soon h2" /\
    doc' !! "notify-btn" = event_live <$> document (browser st) !! "notify-btn".
Proof.
  intros Hb Hp Hdue.
  destruct (updateDisplay_expired (document (browser st)) (intervals (browser st))
              (next_handle (browser st)) (events (browser st))
              (targetDate (this st)) (timerInterval (this st)) now Hdue)
    as (doc' & Hrun & Hslots & _ & Hcs & Hnb).
  exists doc'. rewrite <- (bound_shape st Hb Hp) in Hrun. auto.
Qed.

(* ===================================================================== *)
(** * 10. Properties of the periodic presenter                            *)
(* ===================================================================== *)


Lemma running_session_bound : bound running_session.
Proof. vm_compute. repeat split. Qed.

Lemma running_session_present :
  slots_present (document (browser running_session)).
Proof.
  unfold slots_present, slot_ids.
  repeat constructor; vm_compute; eexists; reflexivity.
Qed.


(** C5 as stated fails: after the tick at 6000 has taken the running
    session to its expired state, one more call of the tick handler
    writes the four numeric slots again. *)
Lemma no_write_after_expiry_counterexample :
  ~ (forall (st : State) (now now' : Z),
       bound st -> slots_present (document (browser st)) ->
       targetDate (this st) <= now -> now <= now' ->
       slot_writes
         (events (browser (exec (updateDisplay now') (exec (updateDisplay now) st))))
       = slot_writes (events (browser (exec (updateDisplay now) st)))).
Proof.
  intros H.
  specialize (H running_session 6000 7000
                running_session_bound running_session_present).
  assert (H1 : targetDate (this running_session) <= 6000)
    by (vm_compute; discriminate).
  assert (H2 : 6000 <= 7000) by lia.
  specialize (H H1 H2). vm_compute in H. discriminate H.
Qed.

(** C5, amended. Once a tick has sampled expired and the terminal
    handling has run, the session holds no timer handle and the handle it
    held is no longer active, so the scheduler runs no further tick of
    it; a call of the tick handler injected at a later instant does write
    the four numeric slots again, each with "00", which is what they
    already show. *)
Theorem after_expiry_only_zeros_are_rewritten (st : State) (now now' : Z) :
  bound st -> slots_present (document (browser st)) ->
  targetDate (this st) <= now -> now <= now' ->
  let st1 := exec (updateDisplay now) st in
  let st2 := exec (updateDisplay now') st1 in
  timerInterval (this st1) = None /\
  (forall hd, timerInterval (this st) = Some hd ->
              (hd ∉ intervals (browser st1)) /\
              tick hd now' st1 = (Normal tt, st1)) /\
  slot_writes (events (browser st2))
  = slot_writes (events (browser st1)) ++ zero_writes /\
  Forall (fun id => shown id st1 = Some "00" /\ shown id st2 = Some "00")
         slot_ids.
Proof.
  intros Hb Hp Hdue Hlater st1 st2. subst st2 st1.
  destruct (expired_tick_state st now Hb Hp Hdue) as (doc1 & Hrun1 & Hslots1 & _).
  unfold exec. rewrite Hrun1. cbn [snd].
  match goal with
  | |- context [updateDisplay now' ?s1] =>
      destruct (expired_tick_state s1 now') as (doc2 & Hrun2 & Hslots2 & _)
  end.
  { apply found_timer_bound. exact (slots_present_rewritten _ _ _ Hp Hslots1). }
  { exact (slots_present_rewritten _ _ _ Hp Hslots1). }
  { cbn. lia. }
  rewrite Hrun2.
  cbn [snd this browser timerInterval found_timer intervals events document
       targetDate] in *.
  split; [reflexivity |]. split; [| split].
  - intros hd Hhd. rewrite Hhd.
    assert (Hgone : hd ∉ intervals (browser st) ∖ {[hd]}).
    { rewrite elem_of_difference, elem_of_singleton. tauto. }
    split; [exact Hgone |].
    unfold tick. cbn [browser intervals].
    rewrite bool_decide_eq_false_2 by exact Hgone. reflexivity.
  - rewrite !slot_writes_app, !slot_writes_terminal, !app_nil_r. reflexivity.
  - rewrite Forall_forall. intros id Hid. unfold shown.
    cbn [browser document].
    rewrite (Hslots2 id Hid), (Hslots1 id Hid).
    destruct (slots_present_lookup _ id Hp Hid) as [e He].
    rewrite He. split; reflexivity.
Qed.

Lemma after_expiry_only_zeros_are_rewritten_witness :
  timerInterval (this (exec (updateDisplay 6000) running_session)) = None /\
  (forall hd, timerInterval (this running_session) = Some hd ->
              (hd ∉ intervals (browser (exec (updateDisplay 6000) running_session))) /\
              tick hd 7000 (exec (updateDisplay 6000) running_session)
              = (Normal tt, exec (updateDisplay 6000) running_session)) /\
  slot_writes
    (events (browser (exec (updateDisplay 7000)
                           (exec (updateDisplay 6000) running_session))))
  = slot_writes (events (browser (exec (updateDisplay 6000) running_session)))
      ++ zero_writes /\
  Forall (fun id =>
            shown id (exec (updateDisplay 6000) running_session) = Some "00" /\
            shown id (exec (updateDisplay 7000)
                           (exec (updateDisplay 6000) running_session)) = Some "00")
         slot_ids.
Proof.
  apply (after_expiry_only_zeros_are_rewritten running_session 6000 7000).
  - exact running_session_bound.
  - exact running_session_present.
  - vm_compute. discriminate.
  - lia.
Defined.

(** C8 as stated fails where it promises that no periodic sampling is
    active after [stop ()]: once [start ()] has run twice on the fresh
    session, [stop ()] clears the handle field and a second [stop ()]
    changes nothing, but the interval of the first [start ()] is still
    active. *)
Lemma stop_leaves_sampling_counterexample :
  ~ (forall ops : list Op,
       (stop ;; stop) (exec (run_ops ops) fresh_session)
       = stop (exec (run_ops ops) fresh_session) /\
       timerInterval (this (exec stop (exec (run_ops ops) fresh_session))) = None /\
       intervals (browser (exec stop (exec (run_ops ops) fresh_session))) = ∅).
Proof.
  intros H.
  destruct (H [op_start 100; op_start 200]) as (_ & _ & Hnone).
  apply (f_equal (fun hs : gset positive => bool_decide (1%positive ∈ hs))) in Hnone.
  vm_compute in Hnone. discriminate Hnone.
Qed.

(** C8, amended. [stop ()] is idempotent: in every session state a
    second call right after the first changes nothing, so two calls
    leave the state one call leaves; after it the handle field is [null]
    and the handle that was held is not active (an interval of an
    earlier [start ()] whose handle was overwritten may still be); and
    on a timer that was never started [stop ()] does nothing. *)
Theorem stop_idempotent (st : State) :
  stop (exec stop st) = (Normal tt, exec stop st) /\
  (stop ;; stop) st = stop st /\
  outcome stop st = Normal tt /\
  timerInterval (this (exec stop st)) = None /\
  match timerInterval (this st) with
  | Some hd => hd ∉ intervals (browser (exec stop st))
  | None => exec stop st = st
  end /\
  forall (target : Z) (b : Browser),
    stop (snd (new_CountdownTimer target b))
    = (Normal tt, snd (new_CountdownTimer target b)).
Proof.
  destruct st as [[doc ints nh evs] [tgt [hd |] d h m s]].
  - unfold exec, outcome. cbv [mbind JS_bind].
    rewrite stop_held. cbn [fst snd]. rewrite stop_idle.
    cbn [this browser timerInterval intervals].
    repeat split; try reflexivity.
    + rewrite elem_of_difference, elem_of_singleton. tauto.
    + intros target [doc0 ints0 nh0 evs0].
      unfold new_CountdownTimer, validateElements. js_run.
      destruct (existsb _ _); reflexivity.
  - unfold exec, outcome. cbv [mbind JS_bind].
    rewrite stop_idle. cbn [fst snd]. rewrite stop_idle.
    repeat split; try reflexivity.
    intros target [doc0 ints0 nh0 evs0].
    unfold new_CountdownTimer, validateElements. js_run.
    destruct (existsb _ _); reflexivity.
Qed.

(** C9 fails on the code when [start ()] is called twice: the second call
    replaces the handle of the first without clearing it, so after
    [stop ()] the first interval is still active and the scheduler keeps
    running its ticks, while the session holds no handle to clear it
    with. *)
Theorem second_start_orphans_first_interval (st : State) (now1 now2 : Z) :
  bound st -> slots_present (document (browser st)) ->
  now1 < targetDate (this st) -> now2 < targetDate (this st) ->
  let st' := exec (start now1 ;; start now2 ;; stop) st in
  outcome (start now1 ;; start now2 ;; stop) st = Normal tt /\
  timerInterval (this st') = None /\
  next_handle (browser st) ∈ intervals (browser st') /\
  forall now3 : Z,
    tick (next_handle (browser st)) now3 st' = updateDisplay now3 st'.
Proof.
  intros Hb Hp H1 H2 st'. subst st'.
  rewrite (bound_shape st Hb Hp).
  set (tgt := targetDate (this st)) in *.
  unfold exec, outcome. cbv [mbind JS_bind].
  cbn [browser next_handle].
  rewrite start_running by assumption.
  rewrite start_running by assumption.
  unfold found_timer. rewrite stop_held.
  cbn [fst snd this browser timerInterval intervals].
  assert (Hin : next_handle (browser st)
                ∈ ({[Pos.succ (next_handle (browser st))]}
                   ∪ ({[next_handle (browser st)]} ∪ intervals (browser st)))
                  ∖ {[Pos.succ (next_handle (browser st))]}).
  { pose proof (Pos.succ_discr (next_handle (browser st))) as Hfresh.
    rewrite elem_of_difference, !elem_of_union, !elem_of_singleton. tauto. }
  repeat split; [exact Hin |].
  intros now3. unfold tick. cbn [browser intervals].
  rewrite bool_decide_eq_true_2 by exact Hin. reflexivity.
Qed.

Lemma second_start_orphans_first_interval_witness :
  outcome (start 100 ;; start 200 ;; stop) fresh_session = Normal tt /\
  timerInterval (this (exec (start 100 ;; start 200 ;; stop) fresh_session)) = None /\
  next_handle (browser fresh_session)
  ∈ intervals (browser (exec (start 100 ;; start 200 ;; stop) fresh_session)) /\
  forall now3 : Z,
    tick (next_handle (browser fresh_session)) now3
      (exec (start 100 ;; start 200 ;; stop) fresh_session)
    = updateDisplay now3 (exec (start 100 ;; start 200 ;; stop) fresh_session).
Proof.
  apply (second_start_orphans_first_interval fresh_session 100 200).
  - vm_compute. repeat split.
  - unfold slots_present, slot_ids.
    repeat constructor; vm_compute; eexists; reflexivity.
  - vm_compute. reflexivity.
  - vm_compute. reflexivity.
Defined.

(** C4 fails on the code: with a required slot missing the constructor
    does report the diagnostic, but [start ()] then throws a TypeError on
    the first write to the missing slot; it stops there, before any
    interval is set up. *)
Theorem missing_slot_makes_start_throw (b : Browser) (target now : Z) :
  ~ slots_present (document b) ->
  fst (new_CountdownTimer target b) = Normal tt /\
  events (browser (snd (new_CountdownTimer target b)))
  = events b
      ++ [console_error "ERROR: One or more countdown timer elements not found in DOM"] /\
  outcome (start now) (snd (new_CountdownTimer target b)) = Throw TypeError /\
  timerInterval (this (exec (start now) (snd (new_CountdownTimer target b)))) = None /\
  intervals (browser (exec (start now) (snd (new_CountdownTimer target b))))
  = intervals b.
Proof.
  intros Hmiss. destruct b as [doc ints nh evs]. cbn [document] in Hmiss.
  unfold new_CountdownTimer, validateElements, start, updateDisplay, lookup_node.
  cbn [document].
  destruct (doc !! "days") as [ed |] eqn:Ed;
    destruct (doc !! "hours") as [eh |] eqn:Eh;
    destruct (doc !! "minutes") as [em |] eqn:Em;
    destruct (doc !! "seconds") as [es |] eqn:Es;
    try (js_run; cbn [existsb bool_decide decide_rel orb]; js_run;
         repeat split; fail).
  exfalso. apply Hmiss. unfold slots_present, slot_ids.
  repeat constructor; eauto.
Qed.

Lemma missing_slot_makes_start_throw_witness :
  fst (new_CountdownTimer 5000 page_without_days) = Normal tt /\
  events (browser (snd (new_CountdownTimer 5000 page_without_days)))
  = events page_without_days
      ++ [console_error "ERROR: One or more countdown timer elements not found in DOM"] /\
  outcome (start 100) (snd (new_CountdownTimer 5000 page_without_days))
  = Throw TypeError /\
  timerInterval
    (this (exec (start 100) (snd (new_CountdownTimer 5000 page_without_days))))
  = None /\
  intervals
    (browser (exec (start 100) (snd (new_CountdownTimer 5000 page_without_days))))
  = intervals page_without_days.
Proof.
  apply (missing_slot_makes_start_throw page_without_days 5000 100).
  unfold slots_present, slot_ids. rewrite Forall_cons.
  intros [[e He] _]. vm_compute in He. discriminate He.
Defined.

(* ===================================================================== *)
(** * 11. The bindings of a session never change                          *)
(* ===================================================================== *)

Create HintDb bindings.

Lemma same_bindings_refl (st : State) : same_bindings st st.
Proof. unfold same_bindings. auto 10. Qed.

Lemma same_bindings_trans (st1 st2 st3 : State) :
  same_bindings st1 st2 -> same_bindings st2 st3 -> same_bindings st1 st3.
Proof.
  unfold same_bindings.
  intros (A1 & A2 & A3 & A4 & A5 & A6) (B1 & B2 & B3 & B4 & B5 & B6).
  repeat split; try congruence.
Qed.

Section Bindings.

Context {A B : Type}.

Lemma keeps_ret (a : A) : keeps_bindings (mret a : JS A).
Proof. intros st. apply same_bindings_refl. Qed.

Lemma keeps_throw (e : JsError) : keeps_bindings (throw e : JS A).
Proof. intros st. apply same_bindings_refl. Qed.

Lemma keeps_bind (m : JS A) (k : A -> JS B) :
  keeps_bindings m -> (forall a, keeps_bindings (k a)) ->
  keeps_bindings (m ≫= k).
Proof.
  intros Hm Hk st. specialize (Hm st).
  unfold exec in *. cbv [mbind JS_bind].
  destruct (m st) as [[a | e] st1]; cbn [snd] in *.
  - exact (same_bindings_trans _ _ _ Hm (Hk a st1)).
  - exact Hm.
Qed.

End Bindings.

Lemma keeps_get_this : keeps_bindings get_this.
Proof. intros st. apply same_bindings_refl. Qed.

Lemma keeps_get_document : keeps_bindings get_document.
Proof. intros st. apply same_bindings_refl. Qed.

Lemma keeps_log_event (e : Event) : keeps_bindings (log_event e).
Proof. intros st. unfold same_bindings. js_run. auto 10. Qed.

Lemma keeps_alter (f : Element -> Element) (node : string) :
  keeps_bindings (update_document (alter f node)).
Proof.
  intros st. unfold same_bindings. js_run.
  repeat split. intros key. apply lookup_node_alter.
Qed.

Lemma keeps_setInterval (delay : Z) : keeps_bindings (setInterval delay).
Proof. intros st. unfold same_bindings. js_run. auto 10. Qed.

Lemma keeps_clearInterval (hd : positive) : keeps_bindings (clearInterval hd).
Proof. intros st. unfold same_bindings. js_run. auto 10. Qed.

Lemma keeps_set_timerInterval (v : option positive) :
  keeps_bindings (set_timerInterval v).
Proof. intros st. unfold same_bindings. js_run. auto 10. Qed.

#[local] Hint Resolve keeps_ret keeps_throw keeps_get_this keeps_get_document
  keeps_log_event keeps_alter keeps_setInterval keeps_clearInterval
  keeps_set_timerInterval : bindings.

(** Goes through a method body: a bind splits, a branch on a value is
    taken both ways, a primitive is closed by its lemma. *)
Ltac keeps :=
  repeat first
    [ apply keeps_bind; [| intros ?]
    | match goal with
      | |- keeps_bindings (match ?x with _ => _ end) => destruct x
      end
    | solve [auto with bindings] ].

Lemma keeps_set_textContent (el : option string) (text : string) :
  keeps_bindings (set_textContent el text).
Proof. unfold set_textContent. keeps. Qed.

Lemma keeps_set_disabled (el : option string) (value : bool) :
  keeps_bindings (set_disabled el value).
Proof. unfold set_disabled. keeps. Qed.

Lemma keeps_set_style_opacity (el : option string) (value : string) :
  keeps_bindings (set_style_opacity el value).
Proof. unfold set_style_opacity. keeps. Qed.

Lemma keeps_set_style_cursor (el : option string) (value : string) :
  keeps_bindings (set_style_cursor el value).
Proof. unfold set_style_cursor. keeps. Qed.

#[local] Hint Resolve keeps_set_textContent keeps_set_disabled
  keeps_set_style_opacity keeps_set_style_cursor : bindings.

Lemma keeps_stop : keeps_bindings stop.
Proof. unfold stop. keeps. Qed.

#[local] Hint Resolve keeps_stop : bindings.

Lemma keeps_handleExpiredEvent : keeps_bindings handleExpiredEvent.
Proof. unfold handleExpiredEvent, querySelector, getElementById. keeps. Qed.

#[local] Hint Resolve keeps_handleExpiredEvent : bindings.

Lemma keeps_updateDisplay (now : Z) : keeps_bindings (updateDisplay now).
Proof. unfold updateDisplay. keeps. Qed.

#[local] Hint Resolve keeps_updateDisplay : bindings.

Lemma keeps_start (now : Z) : keeps_bindings (start now).
Proof. unfold start. keeps. Qed.

#[local] Hint Resolve keeps_start : bindings.

Lemma keeps_reset (now : Z) : keeps_bindings (reset now).
Proof. unfold reset. keeps. Qed.

Lemma keeps_tick (hd : positive) (now : Z) : keeps_bindings (tick hd now).
Proof.
  intros st. unfold exec, tick.
  destruct (bool_decide _); [apply keeps_updateDisplay | apply same_bindings_refl].
Qed.

(** So a session stays bound, on a page that keeps its slots, through
    every method, whether the method returns or throws. *)
Lemma bound_kept {A : Type} (m : JS A) (st : State) :
  keeps_bindings m ->
  bound st -> slots_present (document (browser st)) ->
  bound (exec m st) /\ slots_present (document (browser (exec m st))).
Proof.
  intros Hm (Hd & Hh & Hmi & Hs) Hp.
  destruct (Hm st) as (_ & Kd & Kh & Km & Ks & Knodes).
  split.
  - unfold bound. rewrite Kd, Kh, Km, Ks, !Knodes. auto.
  - unfold slots_present in *. rewrite Forall_forall in *.
    intros id Hid. specialize (Hp id Hid). specialize (Knodes id).
    rewrite (lookup_node_present _ _ Hp) in Knodes.
    apply lookup_node_Some in Knodes. tauto.
Qed.

(** [start ()] on a page opened after the target: the terminal handling
    runs inside the first rendering, before the interval is set up, so
    the interval is active when [start ()] returns; its first tick writes
    the four zeros once more and clears it. *)
Example late_start_sets_interval :
  timerInterval (this (exec (start 9000) fresh_session)) = Some 1%positive /\
  intervals (browser (exec (start 9000) fresh_session)) = {[1%positive]} /\
  slot_writes (events (browser (exec (start 9000 ;; tick 1 10000) fresh_session)))
  = zero_writes ++ zero_writes /\
  intervals (browser (exec (start 9000 ;; tick 1 10000) fresh_session)) = ∅.
Proof. repeat split; vm_compute; reflexivity. Qed.

(* ===================================================================== *)
(** * 12. More on the countdown engine                                    *)
(* ===================================================================== *)

(** The second count of a state in closed form: the whole seconds of
    the rounded difference, and zero from the target on. *)
Lemma total_seconds_closed_form (target now : Z) :
  total_seconds (calculateTimeRemaining target now)
  = Z.max 0 (round_to_double (target - now) / 1000).
Proof.
  destruct (Z.le_gt_cases (target - now) 0) as [Hle | Hgt].
  - rewrite calculateTimeRemaining_expired by assumption.
    pose proof (round_nonpos _ Hle).
    assert (round_to_double (target - now) / 1000 <= 0)
      by (apply Z.div_le_upper_bound; lia).
    unfold total_seconds. cbn. lia.
  - rewrite calculateTimeRemaining_running by assumption.
    unfold total_seconds. cbn. rewrite decomposition_exact.
    pose proof (round_pos _ Hgt).
    assert (0 <= round_to_double (target - now) / 1000)
      by (apply Z.div_pos; lia).
    lia.
Qed.

(** X1. As the clock advances the countdown never goes up: for the same
    target, a later instant gives a second count that is not larger. *)
Theorem countdown_never_increases (target now now' : Z) :
  now <= now' ->
  total_seconds (calculateTimeRemaining target now')
  <= total_seconds (calculateTimeRemaining target now).
Proof.
  intros Hlater. rewrite !total_seconds_closed_form.
  pose proof (round_mono (target - now') (target - now) ltac:(lia)).
  assert (round_to_double (target - now') / 1000
          <= round_to_double (target - now) / 1000)
    by (apply Z.div_le_mono; lia).
  lia.
Qed.

Lemma countdown_never_increases_witness :
  total_seconds (calculateTimeRemaining 5000 3500)
  <= total_seconds (calculateTimeRemaining 5000 100).
Proof. apply (countdown_never_increases 5000 100 3500). lia. Defined.

(** X2. One interval later the countdown is one second lower: when at
    least 1000 ms are left, and at most 2^53 - 1 so that the difference
    is exact, the sample taken 1000 ms (UPDATE_INTERVAL) later stands
    for exactly one second less; and when exactly 1000 ms were left that
    later sample is the clamped expired state. *)
Theorem one_interval_later_one_second_less (target now : Z) :
  1000 <= target - now <= MAX_SAFE_INTEGER ->
  total_seconds (calculateTimeRemaining target (now + UPDATE_INTERVAL))
  = total_seconds (calculateTimeRemaining target now) - 1 /\
  (target - now = 1000 ->
   calculateTimeRemaining target (now + UPDATE_INTERVAL)
   = {| days := 0; hours := 0; minutes := 0; seconds := 0; isExpired := true |}).
Proof.
  intros Hleft. unfold MAX_SAFE_INTEGER in Hleft. split.
  - rewrite !total_seconds_closed_form. unfold UPDATE_INTERVAL.
    rewrite !round_exact by (unfold MAX_SAFE_INTEGER; lia).
    replace (target - (now + 1000)) with ((target - now) + (-1) * 1000) by lia.
    rewrite Z.div_add by lia.
    assert (1 <= (target - now) / 1000) by (apply Z.div_le_lower_bound; lia).
    lia.
  - intros Hlast. apply calculateTimeRemaining_expired.
    unfold UPDATE_INTERVAL. lia.
Qed.

Lemma one_interval_later_one_second_less_witness :
  total_seconds (calculateTimeRemaining 5000 (4000 + UPDATE_INTERVAL))
  = total_seconds (calculateTimeRemaining 5000 4000) - 1 /\
  (5000 - 4000 = 1000 ->
   calculateTimeRemaining 5000 (4000 + UPDATE_INTERVAL)
   = {| days := 0; hours := 0; minutes := 0; seconds := 0; isExpired := true |}).
Proof.
  apply (one_interval_later_one_second_less 5000 4000).
  unfold MAX_SAFE_INTEGER. lia.
Defined.

(** X3. For instants at most 2^53 - 1 ms apart, the fields of a state
    that is not expired are the only way to write the whole seconds left
    as days, hours below 24, minutes below 60 and seconds below 60; in
    particular days is not negative. *)
Theorem decomposition_unique (target now d h m s : Z) :
  now < target -> target - now <= MAX_SAFE_INTEGER ->
  0 <= d -> 0 <= h <= 23 -> 0 <= m <= 59 -> 0 <= s <= 59 ->
  d * 86400 + h * 3600 + m * 60 + s = (target - now) / 1000 ->
  0 <= days (calculateTimeRemaining target now) /\
  d = days (calculateTimeRemaining target now) /\
  h = hours (calculateTimeRemaining target now) /\
  m = minutes (calculateTimeRemaining target now) /\
  s = seconds (calculateTimeRemaining target now).
Proof.
  intros Hlt Hsafe Hd Hh Hm Hs Hsum.
  rewrite calculateTimeRemaining_running by lia. cbn.
  rewrite round_exact by lia.
  assert (0 <= (target - now) / 1000) by (apply Z.div_pos; lia).
  Z.to_euclidean_division_equations. lia.
Qed.

Lemma decomposition_unique_witness :
  0 <= days (calculateTimeRemaining 90061000 0) /\
  1 = days (calculateTimeRemaining 90061000 0) /\
  1 = hours (calculateTimeRemaining 90061000 0) /\
  1 = minutes (calculateTimeRemaining 90061000 0) /\
  1 = seconds (calculateTimeRemaining 90061000 0).
Proof.
  apply (decomposition_unique 90061000 0 1 1 1 1);
    try (unfold MAX_SAFE_INTEGER; lia). reflexivity.
Defined.

(** X22. On time values the floor divisions of the engine are what the
    code computes: with every quotient rounded to a double before
    [Math.floor] cuts it, the result is the same state, for any two
    instants a Date can hold. *)
Theorem engine_exact_on_time_values (target now : Z) :
  Z.abs target <= MAX_TIME_VALUE -> Z.abs now <= MAX_TIME_VALUE ->
  calculateTimeRemaining_in_doubles target now
  = calculateTimeRemaining target now.
Proof.
  intros Ht Hn. unfold MAX_TIME_VALUE in *.
  unfold calculateTimeRemaining_in_doubles, calculateTimeRemaining.
  set (tr := round_to_double (target - now)).
  destruct (Z.leb_spec tr 0) as [_ | Hpos]; [reflexivity |].
  assert (Htr : tr <= 17280000000000000).
  { pose proof (round_mono (target - now) 17280000000000000 ltac:(lia)) as H.
    replace (round_to_double 17280000000000000) with 17280000000000000 in H
      by (vm_compute; reflexivity).
    exact H. }
  change (24 * 60 * 60) with 86400. change (60 * 60) with 3600.
  assert (E1 : floor_of_quotient tr 1000 = tr / 1000).
  { apply (floor_of_quotient_below tr 1000 44); [lia | lia | lia | |].
    - apply Z.div_lt_upper_bound; [lia |].
      change (2 ^ 44) with 17592186044416. lia.
    - vm_compute. reflexivity. }
  rewrite E1. set (ts := tr / 1000).
  assert (Hts : 0 <= ts <= 17280000000000).
  { subst ts. split; [apply Z.div_pos; lia |].
    apply Z.div_le_upper_bound; lia. }
  assert (E2 : floor_of_quotient ts 86400 = ts / 86400).
  { apply (floor_of_quotient_below ts 86400 28); [lia | lia | lia | |].
    - apply Z.div_lt_upper_bound; [lia |].
      change (2 ^ 28) with 268435456. lia.
    - vm_compute. reflexivity. }
  pose proof (Z.rem_bound_pos ts 86400 ltac:(lia) ltac:(lia)) as Hr1.
  pose proof (Z.rem_bound_pos ts 3600 ltac:(lia) ltac:(lia)) as Hr2.
  assert (E3 : floor_of_quotient (Z.rem ts 86400) 3600 = Z.rem ts 86400 / 3600).
  { apply (floor_of_quotient_below _ 3600 5); [lia | lia | lia | |].
    - apply Z.div_lt_upper_bound; [lia |]. change (2 ^ 5) with 32. lia.
    - vm_compute. reflexivity. }
  assert (E4 : floor_of_quotient (Z.rem ts 3600) 60 = Z.rem ts 3600 / 60).
  { apply (floor_of_quotient_below _ 60 6); [lia | lia | lia | |].
    - apply Z.div_lt_upper_bound; [lia |]. change (2 ^ 6) with 64. lia.
    - vm_compute. reflexivity. }
  rewrite E2, E3, E4. reflexivity.
Qed.

Lemma engine_exact_on_time_values_witness :
  calculateTimeRemaining_in_doubles 8640000000000000 (-8639999999999999)
  = calculateTimeRemaining 8640000000000000 (-8639999999999999).
Proof.
  apply (engine_exact_on_time_values 8640000000000000 (-8639999999999999));
    unfold MAX_TIME_VALUE; lia.
Defined.

(* ===================================================================== *)
(** * 13. More on the number formatter                                    *)
(* ===================================================================== *)

Lemma length_string_of_uint_0 (d : Decimal.uint) :
  String.length (NilEmpty.string_of_uint d) = 0%nat -> d = Decimal.Nil.
Proof. destruct d; cbn; congruence. Qed.

(** The text of a non-negative safe integer has one character exactly
    when the integer is below ten. *)
Lemma one_digit_iff (n : Z) :
  0 <= n <= MAX_SAFE_INTEGER ->
  (String.length (String_of_number n) = 1%nat <-> n < 10).
Proof.
  intros Hn. split.
  - destruct (String_of_number_nonneg n Hn) as (d & Hd & Hint & Hstr).
    rewrite Hstr. intros Hlen.
    assert (Hval : Z.of_int (Decimal.Pos d) = n)
      by (rewrite <- Hint; apply DecimalZ.of_to).
    destruct d as [| d' | d' | d' | d' | d' | d' | d' | d' | d' | d'];
      [congruence | ..];
      cbn in Hlen; injection Hlen as Hlen;
      apply length_string_of_uint_0 in Hlen; subst d'; cbn in Hval; lia.
  - intros Hlt.
    assert (Hall : forallb
                     (fun k => Nat.eqb (String.length (String_of_number (Z.of_nat k))) 1)
                     (seq 0 10) = true) by (vm_compute; reflexivity).
    rewrite forallb_forall in Hall.
    specialize (Hall (Z.to_nat n)).
    rewrite Z2Nat.id in Hall by lia.
    apply Nat.eqb_eq, Hall, in_seq. lia.
Qed.

Lemma numeral_nonempty (n : Z) :
  0 <= n <= MAX_SAFE_INTEGER -> (1 <= String.length (String_of_number n))%nat.
Proof.
  intros Hn. destruct (String_of_number_nonneg n Hn) as (d & Hd & _ & Hstr).
  rewrite Hstr. destruct d; cbn; [congruence | lia ..].
Qed.

(** What the formatter gives back reads as the integer it was given. *)
Lemma read_formatNumber (n : Z) :
  0 <= n <= MAX_SAFE_INTEGER -> read_decimal (formatNumber n) = Some n.
Proof.
  intros Hn.
  destruct (String_of_number_nonneg n Hn) as (d & Hd & Hint & Hstr).
  assert (Hval : Z.of_int (Decimal.Pos d) = n)
    by (rewrite <- Hint; apply DecimalZ.of_to).
  unfold formatNumber. rewrite padStart_zeros, Hstr, <- Hval.
  apply (read_zeros _ d Hd).
Qed.

(** X4. The formatter puts exactly one zero in front of an integer from
    0 to 9, which makes two characters, and leaves every safe integer
    from 10 on (at most 2^53 - 1) as its plain decimal numeral. *)
Theorem formatNumber_by_size (n : Z) :
  0 <= n <= MAX_SAFE_INTEGER ->
  (n < 10 ->
   formatNumber n = String "0"%char (decimal_numeral n) /\
   String.length (formatNumber n) = 2%nat) /\
  (10 <= n -> formatNumber n = decimal_numeral n).
Proof.
  intros Hn. unfold formatNumber. rewrite padStart_zeros.
  pose proof (one_digit_iff n Hn) as Hone.
  pose proof (numeral_nonempty n Hn) as Hlen.
  rewrite String_of_number_safe in * by lia.
  split.
  - intros Hlt. apply Hone in Hlt. rewrite Hlt.
    change (String.append (repeat_string "0" (2 - 1)) (decimal_numeral n))
      with (String "0"%char (decimal_numeral n)).
    split; [reflexivity |].
    change (S (String.length (decimal_numeral n)) = 2%nat).
    now rewrite Hlt.
  - intros Hge.
    assert (String.length (decimal_numeral n) <> 1%nat)
      by (intros E; apply Hone in E; lia).
    replace (2 - String.length (decimal_numeral n))%nat with 0%nat by lia.
    reflexivity.
Qed.

Lemma formatNumber_by_size_witness :
  ((7 < 10 ->
    formatNumber 7 = String "0"%char (decimal_numeral 7) /\
    String.length (formatNumber 7) = 2%nat) /\
   (10 <= 7 -> formatNumber 7 = decimal_numeral 7)) /\
  ((123 < 10 ->
    formatNumber 123 = String "0"%char (decimal_numeral 123) /\
    String.length (formatNumber 123) = 2%nat) /\
   (10 <= 123 -> formatNumber 123 = decimal_numeral 123)).
Proof.
  split.
  - apply (formatNumber_by_size 7). unfold MAX_SAFE_INTEGER. lia.
  - apply (formatNumber_by_size 123). unfold MAX_SAFE_INTEGER. lia.
Defined.

(** X5. Different non-negative safe integers (at most 2^53 - 1) are
    rendered differently. *)
Theorem formatNumber_injective (a b : Z) :
  0 <= a <= MAX_SAFE_INTEGER -> 0 <= b <= MAX_SAFE_INTEGER ->
  formatNumber a = formatNumber b -> a = b.
Proof.
  intros Ha Hb Heq.
  pose proof (read_formatNumber a Ha) as Ra.
  pose proof (read_formatNumber b Hb) as Rb.
  rewrite Heq in Ra. congruence.
Qed.

Lemma formatNumber_injective_witness : 5 = 5.
Proof.
  apply (formatNumber_injective 5 5);
    [unfold MAX_SAFE_INTEGER; lia | unfold MAX_SAFE_INTEGER; lia | reflexivity].
Defined.

Lemma two_characters_below_100 (n : Z) :
  0 <= n < 100 -> String.length (formatNumber n) = 2%nat.
Proof.
  intros Hn.
  assert (Hall : forallb
                   (fun k => Nat.eqb (String.length (formatNumber (Z.of_nat k))) 2)
                   (seq 0 100) = true) by (vm_compute; reflexivity).
  rewrite forallb_forall in Hall.
  specialize (Hall (Z.to_nat n)).
  rewrite Z2Nat.id in Hall by lia.
  apply Nat.eqb_eq, Hall, in_seq. lia.
Qed.

(** X6. Whatever the target and the clock, the texts rendered for hours,
    minutes and seconds are exactly two characters long; only the days
    text can be longer. *)
Theorem bounded_fields_render_two_characters (target now : Z) :
  String.length (formatNumber (hours (calculateTimeRemaining target now))) = 2%nat /\
  String.length (formatNumber (minutes (calculateTimeRemaining target now))) = 2%nat /\
  String.length (formatNumber (seconds (calculateTimeRemaining target now))) = 2%nat /\
  (2 <= String.length (formatNumber (days (calculateTimeRemaining target now))))%nat.
Proof.
  destruct (Z.le_gt_cases (target - now) 0) as [Hle | Hgt].
  - rewrite calculateTimeRemaining_expired by assumption. cbn.
    repeat split; reflexivity || (vm_compute; lia).
  - rewrite calculateTimeRemaining_running by assumption. cbn.
    repeat split.
    + apply two_characters_below_100. Z.to_euclidean_division_equations. lia.
    + apply two_characters_below_100. Z.to_euclidean_division_equations. lia.
    + apply two_characters_below_100. Z.to_euclidean_division_equations. lia.
    + unfold formatNumber. rewrite padStart_zeros, length_append, length_zeros. lia.
Qed.

(* ===================================================================== *)
(** * 14. What the page shows                                             *)
(* ===================================================================== *)

(** Four slots that show the renderings of four non-negative safe
    integers show, read as a duration, their combination. *)
Lemma displayed_seconds_of (st : State) (d h m s : Z) :
  0 <= d <= MAX_SAFE_INTEGER -> 0 <= h <= MAX_SAFE_INTEGER ->
  0 <= m <= MAX_SAFE_INTEGER -> 0 <= s <= MAX_SAFE_INTEGER ->
  shown "days" st = Some (formatNumber d) ->
  shown "hours" st = Some (formatNumber h) ->
  shown "minutes" st = Some (formatNumber m) ->
  shown "seconds" st = Some (formatNumber s) ->
  displayed_seconds st = Some (d * 86400 + h * 3600 + m * 60 + s).
Proof.
  intros Hd Hh Hm Hs Sd Sh Sm Ss. unfold displayed_seconds.
  rewrite Sd, Sh, Sm, Ss. cbn.
  rewrite !read_formatNumber by assumption. reflexivity.
Qed.

(** While the instants are at most 2^53 - 1 ms apart, every field is a
    non-negative safe integer. *)
Lemma fields_safe (target now : Z) :
  target - now <= MAX_SAFE_INTEGER ->
  0 <= days (calculateTimeRemaining target now) <= MAX_SAFE_INTEGER /\
  0 <= hours (calculateTimeRemaining target now) <= MAX_SAFE_INTEGER /\
  0 <= minutes (calculateTimeRemaining target now) <= MAX_SAFE_INTEGER /\
  0 <= seconds (calculateTimeRemaining target now) <= MAX_SAFE_INTEGER.
Proof.
  intros Hsafe.
  destruct (Z.le_gt_cases (target - now) 0) as [Hle | Hgt].
  - rewrite calculateTimeRemaining_expired by assumption.
    unfold MAX_SAFE_INTEGER. cbn. lia.
  - rewrite calculateTimeRemaining_running by assumption. cbn.
    rewrite round_exact by lia.
    assert (0 <= (target - now) / 1000) by (apply Z.div_pos; lia).
    unfold MAX_SAFE_INTEGER in *.
    Z.to_euclidean_division_equations. lia.
Qed.

(** What a rendering leaves in the four slots of a page that has them. *)
Lemma shown_after_updateDisplay (st : State) (now : Z) :
  bound st -> slots_present (document (browser st)) ->
  let r := calculateTimeRemaining (targetDate (this st)) now in
  let st' := exec (updateDisplay now) st in
  outcome (updateDisplay now) st = Normal tt /\
  shown "days" st' = Some (formatNumber (days r)) /\
  shown "hours" st' = Some (formatNumber (hours r)) /\
  shown "minutes" st' = Some (formatNumber (minutes r)) /\
  shown "seconds" st' = Some (formatNumber (seconds r)).
Proof.
  intros Hb Hp r st'. subst st'.
  assert (Hids : Forall (fun id => id ∈ slot_ids) slot_ids)
    by (rewrite Forall_forall; auto).
  unfold slot_ids at 2 in Hids.
  rewrite !Forall_cons in Hids. destruct Hids as (Id & Ih & Im & Is & _).
  destruct (Z.lt_ge_cases now (targetDate (this st))) as [Hlt | Hge].
  - rewrite (bound_shape st Hb Hp). unfold exec, outcome.
    cbn [targetDate this found_timer] in *.
    rewrite updateDisplay_running by assumption.
    fold r. unfold shown. cbn [fst snd browser document].
    destruct (render_slot (document (browser st)) r) as (Rd & Rh & Rm & Rs).
    rewrite Rd, Rh, Rm, Rs.
    destruct (slots_present_lookup _ _ Hp Id) as [ed ->].
    destruct (slots_present_lookup _ _ Hp Ih) as [eh ->].
    destruct (slots_present_lookup _ _ Hp Im) as [em ->].
    destruct (slots_present_lookup _ _ Hp Is) as [es ->].
    repeat split.
  - destruct (expired_tick_state st now Hb Hp Hge) as (doc' & Hrun & Hslots & _).
    unfold exec, outcome. rewrite Hrun.
    unfold shown. cbn [fst snd browser document].
    rewrite !Hslots by assumption.
    subst r. rewrite calculateTimeRemaining_expired by lia.
    destruct (slots_present_lookup _ _ Hp Id) as [ed ->].
    destruct (slots_present_lookup _ _ Hp Ih) as [eh ->].
    destruct (slots_present_lookup _ _ Hp Im) as [em ->].
    destruct (slots_present_lookup _ _ Hp Is) as [es ->].
    repeat split.
Qed.

(** The page after a rendering, as long as the target is at most
    2^53 - 1 ms ahead: the four texts, read as a duration, are the whole
    seconds left, and zero from the target on. *)
Lemma displayed_after_updateDisplay (st : State) (now : Z) :
  bound st -> slots_present (document (browser st)) ->
  targetDate (this st) - now <= MAX_SAFE_INTEGER ->
  outcome (updateDisplay now) st = Normal tt /\
  displayed_seconds (exec (updateDisplay now) st)
  = Some (Z.max 0 ((targetDate (this st) - now) / 1000)).
Proof.
  intros Hb Hp Hsafe.
  destruct (shown_after_updateDisplay st now Hb Hp) as (Hok & Sd & Sh & Sm & Ss).
  destruct (fields_safe (targetDate (this st)) now Hsafe) as (Nd & Nh & Nm & Ns).
  split; [exact Hok |].
  rewrite (displayed_seconds_of _ _ _ _ _ Nd Nh Nm Ns Sd Sh Sm Ss).
  f_equal.
  pose proof (total_seconds_closed_form (targetDate (this st)) now) as Hts.
  unfold total_seconds in Hts. rewrite Hts.
  destruct (Z.le_gt_cases (targetDate (this st) - now) 0) as [Hle | Hgt].
  - pose proof (round_nonpos _ Hle).
    assert (round_to_double (targetDate (this st) - now) / 1000 <= 0)
      by (apply Z.div_le_upper_bound; lia).
    assert ((targetDate (this st) - now) / 1000 <= 0)
      by (apply Z.div_le_upper_bound; lia).
    lia.
  - rewrite round_exact by lia. reflexivity.
Qed.

(** X7. After every rendering on a page with the four slots, with the
    target at most 2^53 - 1 ms ahead of the clock, the four texts shown,
    read as numbers of days, hours, minutes and seconds, add up to the
    whole seconds left until the target, and to zero from the target
    on. *)
Theorem display_shows_whole_seconds_left (st : State) (now : Z) :
  bound st -> slots_present (document (browser st)) ->
  targetDate (this st) - now <= MAX_SAFE_INTEGER ->
  outcome (updateDisplay now) st = Normal tt /\
  displayed_seconds (exec (updateDisplay now) st)
  = Some (Z.max 0 ((targetDate (this st) - now) / 1000)).
Proof. exact (displayed_after_updateDisplay st now). Qed.

Lemma display_shows_whole_seconds_left_witness :
  outcome (updateDisplay 1500) running_session = Normal tt /\
  displayed_seconds (exec (updateDisplay 1500) running_session)
  = Some (Z.max 0 ((targetDate (this running_session) - 1500) / 1000)).
Proof.
  apply (display_shows_whole_seconds_left running_session 1500).
  - exact running_session_bound.
  - exact running_session_present.
  - vm_compute. discriminate.
Defined.

(* ===================================================================== *)
(** * 15. The methods on a page with its four slots                       *)
(* ===================================================================== *)

Section LateStart.

Variables (doc : gmap string Element) (ints : gset positive) (nh : positive).
Variables (evs : list Event) (tgt : Z) (ti : option positive).

(** [start] at or after the target: zeros, the terminal handling, and
    then still a fresh interval. *)
Lemma start_expired (now : Z) :
  tgt <= now ->
  exists doc',
    start now {| browser := mkBrowser doc ints nh evs; this := found_timer tgt ti |}
    = (Normal tt,
       {| browser :=
            mkBrowser doc'
              ({[nh]} ∪ match ti with Some hd => ints ∖ {[hd]} | None => ints end)
              (Pos.succ nh)
              (evs ++ zero_writes ++ terminal_events ti doc
                   ++ [setInterval_call nh UPDATE_INTERVAL;
                       console_log_date "Countdown timer started. Target date:" tgt]);
          this := found_timer tgt (Some nh) |}) /\
    (forall key, key ∈ slot_ids ->
                 doc' !! key = with_textContent "00" <$> doc !! key).
Proof.
  intros Hdue.
  destruct (updateDisplay_expired doc ints nh evs tgt ti now Hdue)
    as (doc' & Hrun & Hslots & _).
  exists doc'. split; [| exact Hslots].
  unfold start. cbv [mbind JS_bind]. rewrite Hrun.
  unfold found_timer. js_run. rewrite <- !app_assoc. reflexivity.
Qed.

Lemma beforeunload_handler_run (t : CountdownTimer) :
  beforeunload_handler {| browser := mkBrowser doc ints nh evs; this := t |}
  = (Normal tt,
     {| browser :=
          mkBrowser doc (({[nh]} ∪ ints) ∖ {[nh]}) (Pos.succ nh)
            (evs ++ [setInterval_call nh 1000; clearInterval_call nh]);
        this := t |}).
Proof. unfold beforeunload_handler. js_run. flatten_events. reflexivity. Qed.

End LateStart.

(** Brings a bound session on a page with the four slots into the shape
    the method lemmas are stated for. *)
Ltac session_shape st Hb Hp :=
  let Hs := fresh "Hs" in
  pose proof (bound_shape st Hb Hp) as Hs;
  destruct st as [[?doc ?ints ?nh ?evs] [?tgt ?ti ?d ?h ?m ?s]];
  cbn [browser this document intervals next_handle events
       targetDate timerInterval] in Hs, Hp;
  injection Hs as -> -> -> ->;
  change (mkCountdownTimer tgt ti (Some "days") (Some "hours")
            (Some "minutes") (Some "seconds"))
    with (found_timer tgt ti) in *.

Ltac handles_goal :=
  unfold handles_of, handle_step, hs_acquire, hs_render, hs_stop;
  cbn [fst snd browser this intervals next_handle timerInterval targetDate
       found_timer h_timer h_active h_next].

Lemma updateDisplay_refines (st : State) (now : Z) :
  bound st -> slots_present (document (browser st)) ->
  outcome (updateDisplay now) st = Normal tt /\
  handles_of (exec (updateDisplay now) st)
  = hs_render (targetDate (this st)) now (handles_of st).
Proof.
  intros Hb Hp. session_shape st Hb Hp. unfold exec, outcome.
  destruct (Z.leb_spec tgt now) as [Hdue | Hlt].
  - destruct (updateDisplay_expired doc ints nh evs tgt ti now Hdue)
      as (doc' & Hrun & _).
    rewrite Hrun. handles_goal.
    rewrite (proj2 (Z.leb_le tgt now) Hdue).
    destruct ti; split; reflexivity.
  - rewrite updateDisplay_running by assumption. handles_goal.
    rewrite (proj2 (Z.leb_gt tgt now) Hlt). split; reflexivity.
Qed.

Lemma stop_refines (st : State) :
  outcome stop st = Normal tt /\
  handles_of (exec stop st) = hs_stop (handles_of st).
Proof.
  destruct st as [[doc ints nh evs] [tgt [hd |] d h m s]]; unfold exec, outcome.
  - rewrite stop_held. split; reflexivity.
  - rewrite stop_idle. split; reflexivity.
Qed.

Lemma start_refines (st : State) (now : Z) :
  bound st -> slots_present (document (browser st)) ->
  outcome (start now) st = Normal tt /\
  handles_of (exec (start now) st)
  = hs_acquire (hs_render (targetDate (this st)) now (handles_of st)).
Proof.
  intros Hb Hp. session_shape st Hb Hp. unfold exec, outcome.
  destruct (Z.leb_spec tgt now) as [Hdue | Hlt].
  - destruct (start_expired doc ints nh evs tgt ti now Hdue) as (doc' & Hrun & _).
    rewrite Hrun. handles_goal.
    rewrite (proj2 (Z.leb_le tgt now) Hdue).
    destruct ti; split; reflexivity.
  - rewrite start_running by assumption. handles_goal.
    rewrite (proj2 (Z.leb_gt tgt now) Hlt). split; reflexivity.
Qed.

(** A method that returns normally hands its state to what follows. *)
Lemma bind_normal {A B : Type} (m : JS A) (k : A -> JS B) (st : State) (a : A) :
  outcome m st = Normal a -> (m ≫= k) st = k a (exec m st).
Proof.
  unfold outcome, exec. cbv [mbind JS_bind].
  destruct (m st) as [c st']. cbn. now intros ->.
Qed.

Lemma keeps_beforeunload_handler : keeps_bindings beforeunload_handler.
Proof. unfold beforeunload_handler. keeps. Qed.

Lemma keeps_run_op (o : Op) : keeps_bindings (run_op o).
Proof.
  destruct o; cbn [run_op];
    auto using keeps_stop, keeps_start, keeps_reset, keeps_updateDisplay,
      keeps_tick, keeps_beforeunload_handler.
Qed.

Lemma keeps_run_ops (os : list Op) : keeps_bindings (run_ops os).
Proof.
  induction os as [| o os IH]; cbn [run_ops].
  - apply keeps_ret.
  - apply keeps_bind; [apply keeps_run_op | intros _; exact IH].
Qed.

(** X8. The bindings of a session are never changed: whatever sequence
    of [start], [stop], [reset], renderings, ticks and the unload cleanup
    runs, and whether it ends normally or in a throw, the timer still
    has the same target and the same four element references, and every
    lookup in the document still finds what it found before. *)
Theorem bindings_never_change (os : list Op) (st : State) :
  same_bindings st (exec (run_ops os) st).
Proof. apply keeps_run_ops. Qed.

Lemma run_op_refines (o : Op) (st : State) :
  bound st -> slots_present (document (browser st)) ->
  outcome (run_op o) st = Normal tt /\
  handles_of (exec (run_op o) st)
  = handle_step (targetDate (this st)) o (handles_of st).
Proof.
  intros Hb Hp. destruct o as [now | | now | now | hd now |]; cbn [run_op handle_step].
  - apply start_refines; assumption.
  - apply stop_refines.
  - destruct (stop_refines st) as (Hok & Hhs).
    destruct (bound_kept stop st keeps_stop Hb Hp) as (Hb' & Hp').
    destruct (keeps_stop st) as (Htgt & _).
    destruct (start_refines (exec stop st) now Hb' Hp') as (Hok' & Hhs').
    unfold reset, outcome, exec in *.
    rewrite (bind_normal stop _ st tt Hok). unfold exec.
    rewrite Hok', Hhs', Hhs, Htgt. split; reflexivity.
  - apply updateDisplay_refines; assumption.
  - unfold tick, outcome, exec, handles_of at 2. cbn [h_active].
    destruct (bool_decide (hd ∈ intervals (browser st))).
    + apply updateDisplay_refines; assumption.
    + split; reflexivity.
  - destruct st as [[doc ints nh evs] t]. unfold outcome, exec.
    rewrite beforeunload_handler_run. split; reflexivity.
Qed.

(** X9. On a page with the four slots no method of the session ever
    throws, and what a sequence of them does to the interval handles is
    what the handle machine says: [stop] releases the held handle, a
    rendering at or after the target does the same, [start] takes a new
    handle without releasing the held one, [reset] releases and takes,
    a tick of an inactive handle does nothing. *)
Theorem session_refines_handle_machine (os : list Op) (st : State) :
  bound st -> slots_present (document (browser st)) ->
  outcome (run_ops os) st = Normal tt /\
  handles_of (exec (run_ops os) st)
  = handle_steps (targetDate (this st)) os (handles_of st) /\
  bound (exec (run_ops os) st) /\
  slots_present (document (browser (exec (run_ops os) st))).
Proof.
  revert st. induction os as [| o os IH]; intros st Hb Hp.
  - cbn. auto.
  - destruct (run_op_refines o st Hb Hp) as (Hok & Hhs).
    destruct (bound_kept (run_op o) st (keeps_run_op o) Hb Hp) as (Hb' & Hp').
    destruct (keeps_run_op o st) as (Htgt & _).
    destruct (IH (exec (run_op o) st) Hb' Hp') as (Hok' & Hhs' & Hb'' & Hp'').
    cbn [run_ops]. unfold outcome, exec in *.
    rewrite (bind_normal (run_op o) _ st tt Hok). unfold exec.
    rewrite Hok', Hhs', Hhs, Htgt. cbn [handle_steps fold_left].
    auto.
Qed.

Lemma session_refines_handle_machine_witness :
  outcome (run_ops [op_start 100; op_start 200; op_stop]) fresh_session = Normal tt /\
  handles_of (exec (run_ops [op_start 100; op_start 200; op_stop]) fresh_session)
  = handle_steps (targetDate (this fresh_session))
      [op_start 100; op_start 200; op_stop] (handles_of fresh_session) /\
  bound (exec (run_ops [op_start 100; op_start 200; op_stop]) fresh_session) /\
  slots_present
    (document (browser (exec (run_ops [op_start 100; op_start 200; op_stop])
                             fresh_session))).
Proof.
  apply (session_refines_handle_machine
           [op_start 100; op_start 200; op_stop] fresh_session).
  - vm_compute. repeat split.
  - unfold slots_present, slot_ids.
    repeat constructor; vm_compute; eexists; reflexivity.
Defined.

(* ===================================================================== *)
(** * 16. Who owns the intervals                                          *)
(* ===================================================================== *)

Lemma unload_restores (nh : positive) (X : gset positive) :
  nh ∉ X -> ({[nh]} ∪ X) ∖ {[nh]} = X.
Proof.
  intros Hfresh. apply set_eq. intros x.
  rewrite elem_of_difference, elem_of_union, !elem_of_singleton.
  split.
  - intros [[-> | Hx] Hne]; [congruence | exact Hx].
  - intros Hx. split; [now right |]. intros ->. contradiction.
Qed.

Section Owned.

Variable target : Z.

Lemma owned_stop (hs : Handles) : hs_owned hs -> hs_owned (hs_stop hs).
Proof.
  unfold hs_owned, hs_stop. destruct hs as [[hd |] act nx]; cbn.
  - intros [-> _]. apply difference_diag_L.
  - auto.
Qed.

Lemma owned_render (now : Z) (hs : Handles) :
  hs_owned hs -> hs_owned (hs_render target now hs).
Proof.
  unfold hs_render. destruct (target <=? now); auto using owned_stop.
Qed.

Lemma idle_stop (hs : Handles) : h_timer (hs_stop hs) = None.
Proof. unfold hs_stop. destruct hs as [[hd |] act nx]; reflexivity. Qed.

Lemma owned_acquire (hs : Handles) :
  hs_owned hs -> h_timer hs = None -> hs_owned (hs_acquire hs).
Proof.
  unfold hs_owned, hs_acquire. destruct hs as [ti act nx]; cbn.
  intros Hown ->. subst act. split; [apply union_empty_r_L | lia].
Qed.

Lemma idle_render (now : Z) (hs : Handles) :
  h_timer hs = None -> hs_render target now hs = hs.
Proof.
  intros Hidle. unfold hs_render, hs_stop. rewrite Hidle.
  now destruct (target <=? now).
Qed.

Lemma owned_unload (hs : Handles) :
  hs_owned hs -> hs_owned (handle_step target op_beforeunload hs).
Proof.
  unfold hs_owned, handle_step. destruct hs as [[hd |] act nx]; cbn.
  - intros [-> Hlt]. split; [| lia].
    apply unload_restores. rewrite elem_of_singleton. lia.
  - intros ->. apply unload_restores, not_elem_of_empty.
Qed.

Lemma owned_step (o : Op) (hs : Handles) :
  hs_owned hs -> is_start o = false -> hs_owned (handle_step target o hs).
Proof.
  intros Hown Hns. destruct o as [now | | now | now | hd now |];
    [discriminate | ..]; try (cbn [handle_step]).
  - now apply owned_stop.
  - rewrite idle_render by apply idle_stop.
    apply owned_acquire; [now apply owned_stop | apply idle_stop].
  - now apply owned_render.
  - destruct (bool_decide _); [now apply owned_render | assumption].
  - now apply owned_unload.
Qed.

End Owned.

(** X10. A session that owns its interval keeps owning it: on a page
    with the four slots, when the active intervals are exactly the
    handle the session holds, every sequence of [stop], [reset],
    renderings, ticks and the unload cleanup (no second [start]) ends
    normally and leaves it so; no interval is ever orphaned. *)
Theorem interval_stays_owned (os : list Op) (st : State) :
  healthy st ->
  Forall (fun o => is_start o = false) os ->
  outcome (run_ops os) st = Normal tt /\ healthy (exec (run_ops os) st).
Proof.
  intros Hh Hns. revert st Hh.
  induction Hns as [| o os Ho Hos IH]; intros st (Hb & Hp & Hown).
  - split; [reflexivity | exact (conj Hb (conj Hp Hown))].
  - destruct (run_op_refines o st Hb Hp) as (Hok & Hhs).
    destruct (bound_kept (run_op o) st (keeps_run_op o) Hb Hp) as (Hb' & Hp').
    assert (Hown' : single_owner (exec (run_op o) st)).
    { change (hs_owned (handles_of (exec (run_op o) st))). rewrite Hhs.
      now apply owned_step. }
    destruct (IH (exec (run_op o) st) (conj Hb' (conj Hp' Hown'))) as (Hok' & Hh').
    cbn [run_ops]. unfold outcome, exec in *.
    rewrite (bind_normal (run_op o) _ st tt Hok). unfold exec.
    split; assumption.
Qed.

Lemma running_session_healthy : healthy running_session.
Proof.
  split; [exact running_session_bound |].
  split; [exact running_session_present |].
  vm_compute. split; reflexivity.
Qed.

Lemma interval_stays_owned_witness :
  outcome (run_ops [op_tick 1 1500; op_reset 2000; op_beforeunload;
                    op_updateDisplay 7000; op_stop]) running_session
  = Normal tt /\
  healthy (exec (run_ops [op_tick 1 1500; op_reset 2000; op_beforeunload;
                          op_updateDisplay 7000; op_stop]) running_session).
Proof.
  apply (interval_stays_owned
           [op_tick 1 1500; op_reset 2000; op_beforeunload;
            op_updateDisplay 7000; op_stop] running_session).
  - exact running_session_healthy.
  - repeat constructor.
Defined.

(** [start] on a session that holds no handle gives it one it owns. *)
Lemma start_idle_healthy (st : State) (now : Z) :
  healthy st -> timerInterval (this st) = None ->
  outcome (start now) st = Normal tt /\ healthy (exec (start now) st).
Proof.
  intros (Hb & Hp & Hown) Hidle.
  destruct (start_refines st now Hb Hp) as (Hok & Hhs).
  destruct (bound_kept (start now) st (keeps_start now) Hb Hp) as (Hb' & Hp').
  split; [exact Hok |]. split; [exact Hb' |]. split; [exact Hp' |].
  change (hs_owned (handles_of (exec (start now) st))). rewrite Hhs.
  rewrite idle_render by exact Hidle.
  apply owned_acquire; [exact Hown | exact Hidle].
Qed.

(** [stop] on a session that owns its interval leaves none active. *)
Lemma stop_healthy_idle (st : State) :
  healthy st ->
  outcome stop st = Normal tt /\
  intervals (browser (exec stop st)) = ∅ /\
  timerInterval (this (exec stop st)) = None.
Proof.
  intros (Hb & Hp & Hown).
  destruct (stop_refines st) as (Hok & Hhs).
  split; [exact Hok |].
  pose proof (owned_stop (handles_of st) Hown) as Hown'.
  pose proof (idle_stop (handles_of st)) as Hidle.
  rewrite <- Hhs in Hown', Hidle.
  unfold hs_owned in Hown'. rewrite Hidle in Hown'.
  split; [exact Hown' | exact Hidle].
Qed.

(** X11. A session that is started once never leaks an interval: on a
    page with the four slots and no interval active, construct the
    timer, call [start ()], then run any sequence of [stop], [reset],
    renderings, ticks and the unload cleanup, then [stop ()]: nothing
    throws, no interval is active and the session holds no handle. *)
Theorem started_once_stop_releases_all
        (b : Browser) (target now : Z) (os : list Op) :
  slots_present (document b) -> intervals b = ∅ ->
  Forall (fun o => is_start o = false) os ->
  outcome (start now ;; run_ops os ;; stop) (snd (new_CountdownTimer target b))
  = Normal tt /\
  intervals
    (browser (exec (start now ;; run_ops os ;; stop)
                   (snd (new_CountdownTimer target b)))) = ∅ /\
  timerInterval
    (this (exec (start now ;; run_ops os ;; stop)
                (snd (new_CountdownTimer target b)))) = None.
Proof.
  intros Hp Hnone Hns.
  destruct (new_CountdownTimer_spec target b)
    as (_ & Hb0 & _ & Hidle0 & Hdoc0 & Hints0 & _).
  set (st0 := snd (new_CountdownTimer target b)) in *.
  assert (Hh0 : healthy st0).
  { split; [exact Hb0 |]. split; [now rewrite Hdoc0 |].
    unfold single_owner. rewrite Hidle0, Hints0. exact Hnone. }
  destruct (start_idle_healthy st0 now Hh0 Hidle0) as (Hok1 & Hh1).
  destruct (interval_stays_owned os _ Hh1 Hns) as (Hok2 & Hh2).
  destruct (stop_healthy_idle _ Hh2) as (Hok3 & Hints3 & Hidle3).
  unfold outcome, exec in *.
  rewrite (bind_normal (start now) _ st0 tt Hok1). unfold exec.
  rewrite (bind_normal (run_ops os) _ _ tt Hok2). unfold exec.
  auto.
Qed.

Lemma started_once_stop_releases_all_witness :
  outcome (start 100 ;; run_ops [op_reset 200; op_tick 2 6000] ;; stop)
          (snd (new_CountdownTimer 5000 full_page))
  = Normal tt /\
  intervals
    (browser (exec (start 100 ;; run_ops [op_reset 200; op_tick 2 6000] ;; stop)
                   (snd (new_CountdownTimer 5000 full_page)))) = ∅ /\
  timerInterval
    (this (exec (start 100 ;; run_ops [op_reset 200; op_tick 2 6000] ;; stop)
                (snd (new_CountdownTimer 5000 full_page)))) = None.
Proof.
  apply (started_once_stop_releases_all full_page 5000 100
           [op_reset 200; op_tick 2 6000]).
  - unfold slots_present, slot_ids.
    repeat constructor; vm_compute; eexists; reflexivity.
  - reflexivity.
  - repeat constructor.
Defined.

(* ===================================================================== *)
(** * 17. Handles the browser has given out                               *)
(* ===================================================================== *)

Create HintDb given_out.

Section GivenOut.

Context {A B : Type}.

Lemma given_out_ret (a : A) : keeps_given_out (mret a : JS A).
Proof. intros st H. exact H. Qed.

Lemma given_out_throw (e : JsError) : keeps_given_out (throw e : JS A).
Proof. intros st H. exact H. Qed.

Lemma given_out_bind (m : JS A) (k : A -> JS B) :
  keeps_given_out m -> (forall a, keeps_given_out (k a)) ->
  keeps_given_out (m ≫= k).
Proof.
  intros Hm Hk st Hst. specialize (Hm st Hst).
  unfold exec in *. cbv [mbind JS_bind].
  destruct (m st) as [[a | e] st1]; cbn [snd] in *.
  - exact (Hk a st1 Hm).
  - exact Hm.
Qed.

End GivenOut.

Lemma given_out_get_this : keeps_given_out get_this.
Proof. intros st H. exact H. Qed.

Lemma given_out_get_document : keeps_given_out get_document.
Proof. intros st H. exact H. Qed.

Lemma given_out_log_event (e : Event) : keeps_given_out (log_event e).
Proof. intros st H. exact H. Qed.

Lemma given_out_update_document (f : gmap string Element -> gmap string Element) :
  keeps_given_out (update_document f).
Proof. intros st H. exact H. Qed.

Lemma given_out_set_timerInterval (v : option positive) :
  keeps_given_out (set_timerInterval v).
Proof. intros st H. exact H. Qed.

Lemma given_out_setInterval (delay : Z) : keeps_given_out (setInterval delay).
Proof.
  intros [[doc ints nh evs] t] H hd. unfold handles_given_out in H.
  cbn [browser intervals next_handle] in H. js_run.
  rewrite elem_of_union, elem_of_singleton.
  intros [-> | Hin]; [lia |]. specialize (H hd Hin). lia.
Qed.

Lemma given_out_clearInterval (h : positive) : keeps_given_out (clearInterval h).
Proof.
  intros [[doc ints nh evs] t] H hd. unfold handles_given_out in H.
  cbn [browser intervals next_handle] in H. js_run.
  rewrite elem_of_difference. intros [Hin _]. exact (H hd Hin).
Qed.

#[local] Hint Resolve given_out_ret given_out_throw given_out_get_this
  given_out_get_document given_out_log_event given_out_update_document
  given_out_set_timerInterval given_out_setInterval given_out_clearInterval
  : given_out.

Ltac given_out :=
  repeat first
    [ apply given_out_bind; [| intros ?]
    | match goal with
      | |- keeps_given_out (match ?x with _ => _ end) => destruct x
      end
    | solve [auto with given_out] ].

Lemma given_out_set_textContent (el : option string) (text : string) :
  keeps_given_out (set_textContent el text).
Proof. unfold set_textContent. given_out. Qed.

Lemma given_out_set_disabled (el : option string) (value : bool) :
  keeps_given_out (set_disabled el value).
Proof. unfold set_disabled. given_out. Qed.

Lemma given_out_set_style_opacity (el : option string) (value : string) :
  keeps_given_out (set_style_opacity el value).
Proof. unfold set_style_opacity. given_out. Qed.

Lemma given_out_set_style_cursor (el : option string) (value : string) :
  keeps_given_out (set_style_cursor el value).
Proof. unfold set_style_cursor. given_out. Qed.

#[local] Hint Resolve given_out_set_textContent given_out_set_disabled
  given_out_set_style_opacity given_out_set_style_cursor : given_out.

Lemma given_out_stop : keeps_given_out stop.
Proof. unfold stop. given_out. Qed.

#[local] Hint Resolve given_out_stop : given_out.

Lemma given_out_handleExpiredEvent : keeps_given_out handleExpiredEvent.
Proof.
  unfold handleExpiredEvent, querySelector, getElementById. given_out.
Qed.

#[local] Hint Resolve given_out_handleExpiredEvent : given_out.

Lemma given_out_updateDisplay (now : Z) : keeps_given_out (updateDisplay now).
Proof. unfold updateDisplay. given_out. Qed.

#[local] Hint Resolve given_out_updateDisplay : given_out.

Lemma given_out_start (now : Z) : keeps_given_out (start now).
Proof. unfold start. given_out. Qed.

#[local] Hint Resolve given_out_start : given_out.

Lemma given_out_run_op (o : Op) : keeps_given_out (run_op o).
Proof.
  destruct o as [now | | now | now | hd now |]; cbn [run_op].
  - apply given_out_start.
  - apply given_out_stop.
  - unfold reset. given_out.
  - apply given_out_updateDisplay.
  - intros st H. unfold exec, tick.
    destruct (bool_decide _); [now apply given_out_updateDisplay | exact H].
  - unfold beforeunload_handler. given_out.
Qed.

Lemma given_out_run_ops (os : list Op) : keeps_given_out (run_ops os).
Proof.
  induction os as [| o os IH]; cbn [run_ops].
  - apply given_out_ret.
  - apply given_out_bind; [apply given_out_run_op | intros _; exact IH].
Qed.

(** X12. The cleanup that runs when the page is left stops no timer: at
    any point of a session's life, after whatever sequence of methods,
    the [beforeunload] listener returns with the same intervals active
    as before it, the same timer object and the same document; the
    interval it sets up itself is the only one it clears. *)
Theorem unload_cleanup_stops_no_timer (os : list Op) (st : State) :
  handles_given_out (browser st) ->
  outcome beforeunload_handler (exec (run_ops os) st) = Normal tt /\
  intervals (browser (exec beforeunload_handler (exec (run_ops os) st)))
  = intervals (browser (exec (run_ops os) st)) /\
  this (exec beforeunload_handler (exec (run_ops os) st))
  = this (exec (run_ops os) st) /\
  document (browser (exec beforeunload_handler (exec (run_ops os) st)))
  = document (browser (exec (run_ops os) st)).
Proof.
  intros Hout. pose proof (given_out_run_ops os st Hout) as Hout'.
  destruct (exec (run_ops os) st) as [[doc ints nh evs] t].
  unfold outcome, exec. rewrite beforeunload_handler_run.
  cbn [fst snd browser this intervals document].
  repeat split. apply unload_restores.
  intros Hin. specialize (Hout' nh Hin). cbn in Hout'. lia.
Qed.

Lemma unload_cleanup_stops_no_timer_witness :
  outcome beforeunload_handler (exec (run_ops [op_start 100]) fresh_session)
  = Normal tt /\
  intervals (browser (exec beforeunload_handler
                           (exec (run_ops [op_start 100]) fresh_session)))
  = intervals (browser (exec (run_ops [op_start 100]) fresh_session)) /\
  this (exec beforeunload_handler (exec (run_ops [op_start 100]) fresh_session))
  = this (exec (run_ops [op_start 100]) fresh_session) /\
  document (browser (exec beforeunload_handler
                          (exec (run_ops [op_start 100]) fresh_session)))
  = document (browser (exec (run_ops [op_start 100]) fresh_session)).
Proof.
  apply (unload_cleanup_stops_no_timer [op_start 100] fresh_session).
  intros hd Hin.
  change (intervals (browser fresh_session)) with (∅ : gset positive) in Hin.
  now apply not_elem_of_empty in Hin.
Defined.

(* ===================================================================== *)
(** * 18. When a method throws                                            *)
(* ===================================================================== *)

Lemma updateDisplay_missing_slot (st : State) (now : Z) :
  bound st -> ~ slots_present (document (browser st)) ->
  outcome (updateDisplay now) st = Throw TypeError.
Proof.
  intros (Hd & Hh & Hm & Hs) Hmiss.
  destruct st as [[doc ints nh evs] [tgt ti d h m s]].
  cbn [browser this document daysElement hoursElement minutesElement
       secondsElement] in *.
  subst d h m s. unfold updateDisplay, lookup_node.
  destruct (doc !! "days") as [ed |] eqn:Ed;
    destruct (doc !! "hours") as [eh |] eqn:Eh;
    destruct (doc !! "minutes") as [em |] eqn:Em;
    destruct (doc !! "seconds") as [es |] eqn:Es;
    try (js_run; reflexivity).
  exfalso. apply Hmiss. unfold slots_present, slot_ids.
  repeat constructor; eauto.
Qed.

Lemma slots_present_dec (doc : gmap string Element) :
  slots_present doc \/ ~ slots_present doc.
Proof.
  unfold slots_present, slot_ids.
  destruct (doc !! "days") as [ed |] eqn:Ed;
    destruct (doc !! "hours") as [eh |] eqn:Eh;
    destruct (doc !! "minutes") as [em |] eqn:Em;
    destruct (doc !! "seconds") as [es |] eqn:Es;
    try (left; repeat constructor; eauto; fail);
    right; rewrite !Forall_cons, Ed, Eh, Em, Es;
    intros (Pd & Ph & Pm & Ps & _);
    first [ now destruct Pd | now destruct Ph | now destruct Pm | now destruct Ps ].
Qed.

(** X13. A rendering throws exactly when a slot is missing: for a timer
    as the constructor bound it, [updateDisplay ()] returns normally if
    and only if the document has all four slots, and throws a TypeError
    if and only if it lacks one. *)
Theorem updateDisplay_throws_iff_slot_missing (st : State) (now : Z) :
  bound st ->
  (outcome (updateDisplay now) st = Normal tt
   <-> slots_present (document (browser st))) /\
  (outcome (updateDisplay now) st = Throw TypeError
   <-> ~ slots_present (document (browser st))).
Proof.
  intros Hb.
  destruct (slots_present_dec (document (browser st))) as [Hp | Hmiss].
  - destruct (updateDisplay_refines st now Hb Hp) as (Hok & _).
    rewrite Hok. split; split; auto; try discriminate.
    intros Hn. contradiction.
  - rewrite (updateDisplay_missing_slot st now Hb Hmiss).
    split; split; auto; try discriminate.
    intros Hp. contradiction.
Qed.

Lemma updateDisplay_throws_iff_slot_missing_witness :
  (outcome (updateDisplay 100) (snd (new_CountdownTimer 5000 page_without_days))
   = Normal tt
   <-> slots_present
         (document (browser (snd (new_CountdownTimer 5000 page_without_days))))) /\
  (outcome (updateDisplay 100) (snd (new_CountdownTimer 5000 page_without_days))
   = Throw TypeError
   <-> ~ slots_present
         (document (browser (snd (new_CountdownTimer 5000 page_without_days))))).
Proof.
  apply (updateDisplay_throws_iff_slot_missing
           (snd (new_CountdownTimer 5000 page_without_days)) 100).
  vm_compute. repeat split.
Defined.

(** With four references that are not [null], whatever they point to,
    [start] returns normally. *)
Lemma start_normal_with_references
      (b : Browser) (tgt : Z) (ti : option positive) (nd nh nm ns : string)
      (now : Z) :
  outcome (start now)
    {| browser := b;
       this := mkCountdownTimer tgt ti (Some nd) (Some nh) (Some nm) (Some ns) |}
  = Normal tt.
Proof.
  destruct b as [doc ints nx evs].
  unfold start, updateDisplay. js_run.
  destruct (isExpired (calculateTimeRemaining tgt now)).
  - match goal with
    | |- context [handleExpiredEvent
                    {| browser := mkBrowser ?d ?i ?n ?e; this := _ |}] =>
        destruct (handleExpiredEvent_spec d i n e tgt
                    (Some nd) (Some nh) (Some nm) (Some ns) ti)
          as (doc' & Hrun & _)
    end.
    rewrite Hrun. reflexivity.
  - reflexivity.
Qed.

(** X14. A [start ()] that throws has touched no interval: in every
    state, if [start ()] does not return normally then what it threw is
    the TypeError of a write to a missing slot, no interval was set up or
    cleared, and the session holds the handle it held before. *)
Theorem throwing_start_leaves_intervals (st : State) (now : Z) :
  outcome (start now) st <> Normal tt ->
  outcome (start now) st = Throw TypeError /\
  handles_of (exec (start now) st) = handles_of st.
Proof.
  destruct st as [b [tgt ti [nd |] [nh |] [nm |] [ns |]]];
    try (intros _; destruct b as [doc ints nx evs];
         unfold start, updateDisplay; js_run; split; reflexivity).
  intros Hthrow. exfalso. apply Hthrow. apply start_normal_with_references.
Qed.

Lemma throwing_start_leaves_intervals_witness :
  outcome (start 100) (snd (new_CountdownTimer 5000 page_without_days))
  = Throw TypeError /\
  handles_of (exec (start 100) (snd (new_CountdownTimer 5000 page_without_days)))
  = handles_of (snd (new_CountdownTimer 5000 page_without_days)).
Proof.
  apply (throwing_start_leaves_intervals
           (snd (new_CountdownTimer 5000 page_without_days)) 100).
  vm_compute. discriminate.
Defined.

(* ===================================================================== *)
(** * 19. A page opened after the target                                  *)
(* ===================================================================== *)

Lemma terminal_events_lookups (ti : option positive)
      (doc1 doc2 : gmap string Element) :
  (forall key, lookup_node key doc1 = lookup_node key doc2) ->
  terminal_events ti doc1 = terminal_events ti doc2.
Proof. intros Hsame. unfold terminal_events. now rewrite !Hsame. Qed.

(** X15. [start ()] at or after the target runs the terminal handling
    and then still sets up an interval; the first tick of that interval
    writes the zeros and runs the terminal handling a second time, and
    only that tick clears it.  For a session that owns its intervals and
    holds none: after [start ()] the new handle is held and is the one
    active interval; after its first tick none is active, none is held,
    and the log shows zeros and terminal events twice. *)
Theorem late_start_runs_terminal_handling_twice (st : State) (now now' : Z) :
  healthy st -> timerInterval (this st) = None ->
  targetDate (this st) <= now -> now <= now' ->
  timerInterval (this (exec (start now) st)) = Some (next_handle (browser st)) /\
  intervals (browser (exec (start now) st)) = {[next_handle (browser st)]} /\
  outcome (tick (next_handle (browser st)) now') (exec (start now) st) = Normal tt /\
  intervals (browser (exec (tick (next_handle (browser st)) now')
                           (exec (start now) st))) = ∅ /\
  timerInterval (this (exec (tick (next_handle (browser st)) now')
                            (exec (start now) st))) = None /\
  events (browser (exec (tick (next_handle (browser st)) now')
                        (exec (start now) st)))
  = events (browser st)
      ++ zero_writes ++ terminal_events None (document (browser st))
      ++ [setInterval_call (next_handle (browser st)) UPDATE_INTERVAL;
          console_log_date "Countdown timer started. Target date:"
            (targetDate (this st))]
      ++ zero_writes
      ++ terminal_events (Some (next_handle (browser st))) (document (browser st)).
Proof.
  intros (Hb & Hp & Hown) Hidle Hdue Hlater.
  destruct (keeps_start now st) as (_ & _ & _ & _ & _ & Hnodes).
  unfold single_owner in Hown. rewrite Hidle in Hown.
  session_shape st Hb Hp.
  cbn [this browser timerInterval targetDate intervals next_handle events
       document found_timer] in *.
  subst ti ints.
  destruct (start_expired doc ∅ nh evs tgt None now Hdue) as (doc1 & Hrun1 & _).
  rewrite union_empty_r_L in Hrun1.
  match type of Hrun1 with
  | start now ?s0 = (_, ?s1) =>
      assert (E1 : exec (start now) s0 = s1) by (unfold exec; now rewrite Hrun1)
  end.
  rewrite E1 in *. cbn [browser document] in Hnodes.
  cbn [this browser timerInterval intervals found_timer].
  split; [reflexivity |]. split; [reflexivity |].
  unfold tick, outcome, exec. cbn [browser intervals].
  rewrite bool_decide_eq_true_2 by (apply elem_of_singleton; reflexivity).
  match goal with
  | |- context [updateDisplay now' {| browser := mkBrowser ?d ?i ?n ?e; this := _ |}] =>
      destruct (updateDisplay_expired d i n e tgt (Some nh) now' ltac:(lia))
        as (doc2 & Hrun2 & _)
  end.
  rewrite Hrun2.
  cbn [fst snd this browser timerInterval intervals events found_timer].
  rewrite (terminal_events_lookups _ _ _ Hnodes).
  repeat split.
  - apply difference_diag_L.
  - rewrite <- !app_assoc. reflexivity.
Qed.

Lemma late_start_runs_terminal_handling_twice_witness :
  timerInterval (this (exec (start 9000) fresh_session))
  = Some (next_handle (browser fresh_session)) /\
  intervals (browser (exec (start 9000) fresh_session))
  = {[next_handle (browser fresh_session)]} /\
  outcome (tick (next_handle (browser fresh_session)) 10000)
          (exec (start 9000) fresh_session) = Normal tt /\
  intervals (browser (exec (tick (next_handle (browser fresh_session)) 10000)
                           (exec (start 9000) fresh_session))) = ∅ /\
  timerInterval (this (exec (tick (next_handle (browser fresh_session)) 10000)
                            (exec (start 9000) fresh_session))) = None /\
  events (browser (exec (tick (next_handle (browser fresh_session)) 10000)
                        (exec (start 9000) fresh_session)))
  = events (browser fresh_session)
      ++ zero_writes ++ terminal_events None (document (browser fresh_session))
      ++ [setInterval_call (next_handle (browser fresh_session)) UPDATE_INTERVAL;
          console_log_date "Countdown timer started. Target date:"
            (targetDate (this fresh_session))]
      ++ zero_writes
      ++ terminal_events (Some (next_handle (browser fresh_session)))
           (document (browser fresh_session)).
Proof.
  apply (late_start_runs_terminal_handling_twice fresh_session 9000 10000).
  - split; [vm_compute; repeat split |].
    split; [| vm_compute; reflexivity].
    unfold slots_present, slot_ids.
    repeat constructor; vm_compute; eexists; reflexivity.
  - reflexivity.
  - vm_compute. discriminate.
  - lia.
Defined.

(* ===================================================================== *)
(** * 20. The constructor                                                 *)
(* ===================================================================== *)

Lemma constructor_silent_when_present (target : Z) (b : Browser) :
  slots_present (document b) ->
  events (browser (snd (new_CountdownTimer target b))) = events b.
Proof.
  intros Hp. destruct b as [doc ints nh evs]. cbn [document] in Hp.
  unfold new_CountdownTimer, validateElements. cbn [document].
  rewrite !lookup_node_present
    by (apply (slots_present_lookup _ _ Hp); unfold slot_ids; set_solver).
  reflexivity.
Qed.

Lemma constructor_reports_when_missing (target : Z) (b : Browser) :
  ~ slots_present (document b) ->
  events (browser (snd (new_CountdownTimer target b)))
  = events b
      ++ [console_error "ERROR: One or more countdown timer elements not found in DOM"].
Proof.
  intros Hmiss. destruct b as [doc ints nh evs]. cbn [document] in Hmiss.
  unfold new_CountdownTimer, validateElements, lookup_node. cbn [document].
  destruct (doc !! "days") as [ed |] eqn:Ed;
    destruct (doc !! "hours") as [eh |] eqn:Eh;
    destruct (doc !! "minutes") as [em |] eqn:Em;
    destruct (doc !! "seconds") as [es |] eqn:Es;
    try reflexivity.
  exfalso. apply Hmiss. unfold slots_present, slot_ids.
  repeat constructor; eauto.
Qed.

(** X16. The constructor never throws and reports exactly the pages
    that lack a slot: it binds the timer to what the four lookups find,
    with the given target and no handle, leaves document and intervals
    alone, logs nothing when all four slots exist and logs the one
    diagnostic line when at least one is missing. *)
Theorem constructor_reports_exactly_missing_slots (target : Z) (b : Browser) :
  fst (new_CountdownTimer target b) = Normal tt /\
  bound (snd (new_CountdownTimer target b)) /\
  targetDate (this (snd (new_CountdownTimer target b))) = target /\
  timerInterval (this (snd (new_CountdownTimer target b))) = None /\
  document (browser (snd (new_CountdownTimer target b))) = document b /\
  intervals (browser (snd (new_CountdownTimer target b))) = intervals b /\
  (slots_present (document b) ->
   events (browser (snd (new_CountdownTimer target b))) = events b) /\
  (~ slots_present (document b) ->
   events (browser (snd (new_CountdownTimer target b)))
   = events b
       ++ [console_error "ERROR: One or more countdown timer elements not found in DOM"]).
Proof.
  destruct (new_CountdownTimer_spec target b) as (Hok & Hb & Ht & Hi & Hd & Hn & _).
  repeat split; try assumption.
  - apply Hb.
  - apply Hb.
  - apply Hb.
  - apply Hb.
  - apply constructor_silent_when_present.
  - apply constructor_reports_when_missing.
Qed.

(* ===================================================================== *)
(** * 21. The sponsors button and the initialization of the page          *)
(* ===================================================================== *)

(** X17. Keyboard and pointer do the same on the sponsors button: once
    [initializeCTAButtons ()] has run on a page that has the button and
    no listener yet, a click, a keypress with key Enter and a keypress
    with the space key each log the one line and show the one alert of
    [handleSponsorsClick ()], and a keypress with any other key changes
    nothing. *)
Theorem sponsors_keys_act_like_click
        (EVENT_DATE now : Z) (key : string) (p : Page) :
  is_Some (document (window p) !! "sponsors-btn") -> listeners p = [] ->
  dispatchEvent EVENT_DATE now (on_element "sponsors-btn") "click" key
    (initializeCTAButtons p)
  = handleSponsorsClick (initializeCTAButtons p) /\
  dispatchEvent EVENT_DATE now (on_element "sponsors-btn") "keypress" "Enter"
    (initializeCTAButtons p)
  = handleSponsorsClick (initializeCTAButtons p) /\
  dispatchEvent EVENT_DATE now (on_element "sponsors-btn") "keypress" " "
    (initializeCTAButtons p)
  = handleSponsorsClick (initializeCTAButtons p) /\
  (key <> "Enter" -> key <> " " ->
   dispatchEvent EVENT_DATE now (on_element "sponsors-btn") "keypress" key
     (initializeCTAButtons p)
   = initializeCTAButtons p) /\
  alerts (handleSponsorsClick (initializeCTAButtons p))
  = alerts p ++ ["Sponsor information coming soon!"] /\
  events (window (initializeCTAButtons p)) = events (window p).
Proof.
  intros Hbtn Hnone. unfold initializeCTAButtons.
  rewrite (lookup_node_present _ _ Hbtn).
  unfold dispatchEvent, addEventListener. cbn [listeners]. rewrite Hnone.
  cbn [app fold_left listener_target listener_type listener_handler
       Target_eqb call_listener run_handler].
  repeat split.
  - intros Hne Hns.
    change (String.eqb "sponsors-btn" "sponsors-btn") with true.
    change (String.eqb "click" "keypress") with false.
    change (String.eqb "keypress" "keypress") with true.
    cbn [andb]. unfold call_listener, run_handler.
    rewrite (proj2 (String.eqb_neq key "Enter") Hne).
    rewrite (proj2 (String.eqb_neq key " ") Hns).
    reflexivity.
Qed.

Lemma sponsors_keys_act_like_click_witness :
  dispatchEvent 5000 100 (on_element "sponsors-btn") "click" "a"
    (initializeCTAButtons (page_of page_with_button))
  = handleSponsorsClick (initializeCTAButtons (page_of page_with_button)) /\
  dispatchEvent 5000 100 (on_element "sponsors-btn") "keypress" "Enter"
    (initializeCTAButtons (page_of page_with_button))
  = handleSponsorsClick (initializeCTAButtons (page_of page_with_button)) /\
  dispatchEvent 5000 100 (on_element "sponsors-btn") "keypress" " "
    (initializeCTAButtons (page_of page_with_button))
  = handleSponsorsClick (initializeCTAButtons (page_of page_with_button)) /\
  ("a" <> "Enter" -> "a" <> " " ->
   dispatchEvent 5000 100 (on_element "sponsors-btn") "keypress" "a"
     (initializeCTAButtons (page_of page_with_button))
   = initializeCTAButtons (page_of page_with_button)) /\
  alerts (handleSponsorsClick (initializeCTAButtons (page_of page_with_button)))
  = alerts (page_of page_with_button) ++ ["Sponsor information coming soon!"] /\
  events (window (initializeCTAButtons (page_of page_with_button)))
  = events (window (page_of page_with_button)).
Proof.
  apply (sponsors_keys_act_like_click 5000 100 "a" (page_of page_with_button)).
  - vm_compute. eexists. reflexivity.
  - reflexivity.
Defined.



Lemma displayed_seconds_document (st st' : State) :
  document (browser st') = document (browser st) ->
  displayed_seconds st' = displayed_seconds st.
Proof.
  intros Hdoc. unfold displayed_seconds, shown. now rewrite Hdoc.
Qed.

(** What follows the first rendering in [start] leaves the document. *)
Lemma start_document (st : State) (now : Z) :
  outcome (updateDisplay now) st = Normal tt ->
  document (browser (exec (start now) st))
  = document (browser (exec (updateDisplay now) st)).
Proof.
  intros Hok. unfold start, exec at 1.
  rewrite (bind_normal (updateDisplay now) _ st tt Hok).
  destruct (exec (updateDisplay now) st) as [[doc ints nh evs] t].
  js_run. reflexivity.
Qed.

Lemma displayed_after_start (st : State) (now : Z) :
  bound st -> slots_present (document (browser st)) ->
  targetDate (this st) - now <= MAX_SAFE_INTEGER ->
  displayed_seconds (exec (start now) st)
  = Some (Z.max 0 ((targetDate (this st) - now) / 1000)).
Proof.
  intros Hb Hp Hsafe.
  destruct (displayed_after_updateDisplay st now Hb Hp Hsafe) as (Hok & Hshow).
  rewrite (displayed_seconds_document _ _ (start_document st now Hok)).
  exact Hshow.
Qed.

Lemma healthy_same_handles (st st' : State) :
  healthy st ->
  document (browser st') = document (browser st) ->
  intervals (browser st') = intervals (browser st) ->
  next_handle (browser st') = next_handle (browser st) ->
  this st' = this st ->
  healthy st'.
Proof.
  intros (Hb & Hp & Hown) Hdoc Hints Hnext Hthis.
  unfold healthy, bound, single_owner in *.
  rewrite Hdoc, Hints, Hnext, Hthis. auto.
Qed.

(** X19. On a page with the four slots and no interval active,
    [initializeApp ()] returns normally and leaves the countdown
    running: the timer exists with the event date as target and holds
    the one active interval; the four slots show the whole seconds left
    (zero from the event date on) as long as the event date is at most
    2^53 - 1 ms ahead of the clock; the sponsors button has its two
    listeners when it exists and none otherwise; no alert was shown; and
    the last line logged is the success line. *)
Theorem initializeApp_starts_the_countdown (b : Browser) (EVENT_DATE now : Z) :
  slots_present (document b) -> intervals b = ∅ ->
  fst (initializeApp EVENT_DATE now (page_of b)) = Normal tt /\
  (exists t,
     timer (snd (initializeApp EVENT_DATE now (page_of b))) = Some t /\
     targetDate t = EVENT_DATE /\
     timerInterval t = Some (next_handle b) /\
     healthy {| browser := window (snd (initializeApp EVENT_DATE now (page_of b)));
                this := t |} /\
     (EVENT_DATE - now <= MAX_SAFE_INTEGER ->
      displayed_seconds
        {| browser := window (snd (initializeApp EVENT_DATE now (page_of b)));
           this := t |}
      = Some (Z.max 0 ((EVENT_DATE - now) / 1000)))) /\
  listeners (snd (initializeApp EVENT_DATE now (page_of b)))
  = match lookup_node "sponsors-btn" (document b) with
    | Some node =>
        [mkListener (on_element node) "click" handler_sponsors_click;
         mkListener (on_element node) "keypress" handler_sponsors_keypress]
    | None => []
    end /\
  alerts (snd (initializeApp EVENT_DATE now (page_of b))) = [] /\
  last (events (window (snd (initializeApp EVENT_DATE now (page_of b)))))
  = Some (console_log "✅ Application initialized successfully").
Proof.
  intros Hp Hnone. unfold initializeApp.
  cbn [page_of page_log with_window window listeners alerts timer].
  set (b1 := emit _ b).
  destruct (new_CountdownTimer_spec EVENT_DATE b1)
    as (Hok0 & Hb0 & Ht0 & Hi0 & Hd0 & Hn0 & Hx0).
  destruct (new_CountdownTimer EVENT_DATE b1) as [c0 st0].
  cbn [fst snd] in *. subst c0.
  assert (Hp0 : slots_present (document (browser st0))) by (now rewrite Hd0).
  assert (Hh0 : healthy st0).
  { split; [exact Hb0 |]. split; [exact Hp0 |].
    unfold single_owner. rewrite Hi0, Hn0. exact Hnone. }
  destruct (start_idle_healthy st0 now Hh0 Hi0) as (Hok1 & Hh1).
  destruct (start_refines st0 now Hb0 Hp0) as (_ & Hhs1).
  pose proof (displayed_after_start st0 now Hb0 Hp0) as Hshow.
  rewrite Ht0 in Hshow.
  destruct (keeps_start now st0) as (Htgt & _ & _ & _ & _ & Hnodes).
  rewrite idle_render in Hhs1 by exact Hi0.
  apply (f_equal h_timer) in Hhs1. cbn in Hhs1.
  unfold outcome, exec in *.
  destruct (start now st0) as [c1 st1]. cbn [fst snd] in *. subst c1.
  unfold initializeCTAButtons. cbn [window].
  rewrite Hnodes, Hd0. cbn [document emit]. subst b1. cbn [document emit].
  destruct (lookup_node "sponsors-btn" (document b)) as [node |];
    cbn [addEventListener page_log with_window fst snd window timer listeners
         alerts app];
    (split; [reflexivity |]; split;
     [ exists (this st1); split; [reflexivity |];
       split; [congruence |];
       split; [rewrite Hhs1, Hx0; reflexivity |];
       split;
       [ apply (healthy_same_handles st1); [exact Hh1 | reflexivity ..]
       | intros Hsafe; rewrite <- (Hshow Hsafe);
         apply displayed_seconds_document; reflexivity ]
     | split; [reflexivity |]; split; [reflexivity |];
       cbn [emit events]; apply last_snoc ]).
Qed.

Lemma initializeApp_starts_the_countdown_witness :
  fst (initializeApp 5000 100 (page_of page_with_button)) = Normal tt /\
  (exists t,
     timer (snd (initializeApp 5000 100 (page_of page_with_button))) = Some t /\
     targetDate t = 5000 /\
     timerInterval t = Some (next_handle page_with_button) /\
     healthy {| browser := window (snd (initializeApp 5000 100 (page_of page_with_button)));
                this := t |} /\
     (5000 - 100 <= MAX_SAFE_INTEGER ->
      displayed_seconds
        {| browser := window (snd (initializeApp 5000 100 (page_of page_with_button)));
           this := t |}
      = Some (Z.max 0 ((5000 - 100) / 1000)))) /\
  listeners (snd (initializeApp 5000 100 (page_of page_with_button)))
  = match lookup_node "sponsors-btn" (document page_with_button) with
    | Some node =>
        [mkListener (on_element node) "click" handler_sponsors_click;
         mkListener (on_element node) "keypress" handler_sponsors_keypress]
    | None => []
    end /\
  alerts (snd (initializeApp 5000 100 (page_of page_with_button))) = [] /\
  last (events (window (snd (initializeApp 5000 100 (page_of page_with_button)))))
  = Some (console_log "✅ Application initialized successfully").
Proof.
  apply (initializeApp_starts_the_countdown page_with_button 5000 100).
  - unfold slots_present, slot_ids.
    repeat constructor; vm_compute; eexists; reflexivity.
  - reflexivity.
Defined.

(** X20. A missing countdown slot takes the rest of the initialization
    with it: [initializeApp ()] then ends in the TypeError of [start ()]
    before it reaches [initializeCTAButtons ()], so no listener is
    registered for the sponsors button and no interval is set up; and
    when the script calls [initializeApp ()] directly (the document is
    not loading any more), the script itself ends there, before it
    registers its [error], [unhandledrejection] and [beforeunload]
    listeners. *)
Theorem missing_slot_aborts_initialization (b : Browser) (EVENT_DATE now : Z) :
  ~ slots_present (document b) ->
  fst (initializeApp EVENT_DATE now (page_of b)) = Throw TypeError /\
  listeners (snd (initializeApp EVENT_DATE now (page_of b))) = [] /\
  alerts (snd (initializeApp EVENT_DATE now (page_of b))) = [] /\
  intervals (window (snd (initializeApp EVENT_DATE now (page_of b)))) = intervals b /\
  fst (run_script false EVENT_DATE now (page_of b)) = Throw TypeError /\
  listeners (snd (run_script false EVENT_DATE now (page_of b))) = [].
Proof.
  intros Hmiss. destruct b as [doc ints nh evs]. cbn [document] in Hmiss.
  unfold run_script, initializeApp, new_CountdownTimer, validateElements,
    start, updateDisplay, lookup_node.
  cbn [page_of page_log with_window window listeners alerts timer emit document].
  destruct (doc !! "days") as [ed |] eqn:Ed;
    destruct (doc !! "hours") as [eh |] eqn:Eh;
    destruct (doc !! "minutes") as [em |] eqn:Em;
    destruct (doc !! "seconds") as [es |] eqn:Es;
    try (js_run; cbn [existsb bool_decide decide_rel orb]; js_run;
         repeat split; fail).
  exfalso. apply Hmiss. unfold slots_present, slot_ids.
  repeat constructor; eauto.
Qed.

Lemma missing_slot_aborts_initialization_witness :
  fst (initializeApp 5000 100 (page_of page_without_days)) = Throw TypeError /\
  listeners (snd (initializeApp 5000 100 (page_of page_without_days))) = [] /\
  alerts (snd (initializeApp 5000 100 (page_of page_without_days))) = [] /\
  intervals (window (snd (initializeApp 5000 100 (page_of page_without_days))))
  = intervals page_without_days /\
  fst (run_script false 5000 100 (page_of page_without_days)) = Throw TypeError /\
  listeners (snd (run_script false 5000 100 (page_of page_without_days))) = [].
Proof.
  apply (missing_slot_aborts_initialization page_without_days 5000 100).
  unfold slots_present, slot_ids. rewrite Forall_cons.
  intros [[e He] _]. vm_compute in He. discriminate He.
Defined.

(** [initializeApp] looks at the browser of the page only; the listeners
    and alerts of the page it is given come out as they went in, before
    what it adds. *)
Lemma initializeApp_window (EVENT_DATE now : Z) (p q : Page) :
  window p = window q ->
  fst (initializeApp EVENT_DATE now p) = fst (initializeApp EVENT_DATE now q) /\
  window (snd (initializeApp EVENT_DATE now p))
  = window (snd (initializeApp EVENT_DATE now q)) /\
  timer (snd (initializeApp EVENT_DATE now p))
  = timer (snd (initializeApp EVENT_DATE now q)).
Proof.
  intros Hw. unfold initializeApp.
  cbn [page_log with_window window listeners alerts timer]. rewrite Hw.
  destruct (new_CountdownTimer EVENT_DATE _) as [[[] | e0] st0];
    [| repeat split].
  destruct (start now st0) as [[[] | e1] st1]; [| repeat split].
  unfold initializeCTAButtons. cbn [window].
  destruct (lookup_node "sponsors-btn" (document (browser st1)));
    repeat split.
Qed.

(** [initializeApp] returns when the four slots are there, and throws
    the TypeError of [start ()] when one is missing; when it throws it
    has registered nothing. *)
Lemma initializeApp_returns (EVENT_DATE now : Z) (p : Page) :
  slots_present (document (window p)) ->
  fst (initializeApp EVENT_DATE now p) = Normal tt.
Proof.
  intros Hp. unfold initializeApp.
  cbn [page_log with_window window listeners alerts timer].
  set (b1 := emit _ (window p)).
  destruct (new_CountdownTimer_spec EVENT_DATE b1)
    as (Hok0 & Hb0 & _ & _ & Hd0 & _ & _).
  destruct (new_CountdownTimer EVENT_DATE b1) as [c0 st0].
  cbn [fst snd] in *. subst c0.
  assert (Hp0 : slots_present (document (browser st0))) by (now rewrite Hd0).
  destruct (start_refines st0 now Hb0 Hp0) as (Hok1 & _).
  unfold outcome in Hok1.
  destruct (start now st0) as [c1 st1]. cbn [fst] in Hok1. subst c1.
  reflexivity.
Qed.

Lemma initializeApp_throws (EVENT_DATE now : Z) (b : Browser) :
  ~ slots_present (document b) ->
  fst (initializeApp EVENT_DATE now (page_of b)) = Throw TypeError.
Proof.
  intros Hmiss. destruct b as [doc ints nh evs]. cbn [document] in Hmiss.
  unfold initializeApp, new_CountdownTimer, validateElements,
    start, updateDisplay, lookup_node.
  cbn [page_of page_log with_window window listeners alerts timer emit document].
  destruct (doc !! "days") as [ed |] eqn:Ed;
    destruct (doc !! "hours") as [eh |] eqn:Eh;
    destruct (doc !! "minutes") as [em |] eqn:Em;
    destruct (doc !! "seconds") as [es |] eqn:Es;
    try (js_run; cbn [existsb bool_decide decide_rel orb]; js_run;
         reflexivity).
  exfalso. apply Hmiss. unfold slots_present, slot_ids.
  repeat constructor; eauto.
Qed.

Lemma initializeApp_throw_listeners (EVENT_DATE now : Z) (p : Page) (e : JsError) :
  fst (initializeApp EVENT_DATE now p) = Throw e ->
  listeners (snd (initializeApp EVENT_DATE now p)) = listeners p.
Proof.
  unfold initializeApp.
  cbn [page_log with_window window listeners alerts timer].
  destruct (new_CountdownTimer EVENT_DATE _) as [[[] | e0] st0];
    [| reflexivity].
  destruct (start now st0) as [[[] | e1] st1]; [| reflexivity].
  cbn [fst]. discriminate.
Qed.

(** X21. Deferred and direct initialization come to the same on a page
    that has the four slots: when the document is still loading, the
    script only registers its listeners (first the one for
    DOMContentLoaded, then the three on the window) and touches neither
    browser nor timer; when DOMContentLoaded then arrives on a page with
    the four slots, the browser and the timer end up exactly as a direct
    call of [initializeApp ()] at that instant leaves them.  On a page
    that lacks a slot the deferred call throws inside a listener, the
    exception is reported to the window, and the script's [error]
    listener adds its one line to what the direct call leaves. *)
Theorem deferred_initialization_same_as_direct
        (b : Browser) (EVENT_DATE now0 now : Z) (key : string) :
  fst (run_script true EVENT_DATE now0 (page_of b)) = Normal tt /\
  window (snd (run_script true EVENT_DATE now0 (page_of b))) = b /\
  timer (snd (run_script true EVENT_DATE now0 (page_of b))) = None /\
  listeners (snd (run_script true EVENT_DATE now0 (page_of b)))
  = [mkListener on_document "DOMContentLoaded" handler_dom_ready;
     mkListener on_window "error" handler_error;
     mkListener on_window "unhandledrejection" handler_unhandledrejection;
     mkListener on_window "beforeunload" handler_beforeunload] /\
  (slots_present (document b) ->
   window (dispatchEvent EVENT_DATE now on_document "DOMContentLoaded" key
             (snd (run_script true EVENT_DATE now0 (page_of b))))
   = window (snd (initializeApp EVENT_DATE now (page_of b)))) /\
  (~ slots_present (document b) ->
   window (dispatchEvent EVENT_DATE now on_document "DOMContentLoaded" key
             (snd (run_script true EVENT_DATE now0 (page_of b))))
   = emit (console_error "❌ Global Error:")
       (window (snd (initializeApp EVENT_DATE now (page_of b))))) /\
  timer (dispatchEvent EVENT_DATE now on_document "DOMContentLoaded" key
           (snd (run_script true EVENT_DATE now0 (page_of b))))
  = timer (snd (initializeApp EVENT_DATE now (page_of b))).
Proof.
  unfold run_script, dispatchEvent, addEventListener.
  cbn [page_of fst snd window timer listeners alerts app fold_left
       listener_target listener_type listener_handler Target_eqb
       call_listener run_handler].
  change (String.eqb "DOMContentLoaded" "DOMContentLoaded") with true.
  change (String.eqb "error" "DOMContentLoaded") with false.
  change (String.eqb "unhandledrejection" "DOMContentLoaded") with false.
  change (String.eqb "beforeunload" "DOMContentLoaded") with false.
  cbn [andb]. unfold call_listener. cbn [run_handler].
  match goal with
  | |- context [initializeApp EVENT_DATE now (mkPage b None (?l :: ?ls) [])] =>
      set (p := mkPage b None (l :: ls) [])
  end.
  change (mkPage b None [] []) with (page_of b).
  destruct (initializeApp_window EVENT_DATE now p (page_of b) eq_refl)
    as (Hf & Hw & Ht).
  pose proof (initializeApp_throw_listeners EVENT_DATE now p) as Hls.
  destruct (initializeApp EVENT_DATE now p) as [[[] | e] p'] eqn:Hrun;
    cbn [fst snd] in *.
  - split; [reflexivity |]. split; [reflexivity |]. split; [reflexivity |].
    split; [reflexivity |]. split; [intros _; exact Hw |].
    split; [| exact Ht].
    intros Hmiss. rewrite (initializeApp_throws _ _ _ Hmiss) in Hf.
    discriminate Hf.
  - specialize (Hls e eq_refl). subst p. cbn [listeners] in Hls.
    unfold report_error. rewrite Hls.
    cbn [fold_left listener_target listener_type listener_handler Target_eqb
         run_handler snd].
    change (String.eqb "error" "error") with true.
    change (String.eqb "unhandledrejection" "error") with false.
    change (String.eqb "beforeunload" "error") with false.
    cbn [andb page_log with_window window timer].
    split; [reflexivity |]. split; [reflexivity |]. split; [reflexivity |].
    split; [reflexivity |]. split; [| split; [| exact Ht]].
    + intros Hp.
      rewrite (initializeApp_returns EVENT_DATE now (page_of b) Hp) in Hf.
      discriminate Hf.
    + intros _. now rewrite Hw.
Qed.

(** The two ways of X21 on concrete pages: with the four slots the
    deferred call leaves the log of the direct one, without the days
    slot it leaves one more line. *)
Example deferred_on_full_page :
  events (window (dispatchEvent 5000 100 on_document "DOMContentLoaded" ""
                    (snd (run_script true 5000 0 (page_of full_page)))))
  = events (window (snd (initializeApp 5000 100 (page_of full_page)))).
Proof. vm_compute. reflexivity. Qed.

Example deferred_without_days :
  events (window (dispatchEvent 5000 100 on_document "DOMContentLoaded" ""
                    (snd (run_script true 5000 0 (page_of page_without_days)))))
  = events (window (snd (initializeApp 5000 100 (page_of page_without_days))))
      ++ [console_error "❌ Global Error:"].
Proof. vm_compute. reflexivity. Qed.
